(** * A verification model of the tool server in [mcp.py]

    The seven tool handlers, the JSON nesting helper and the static
    server-information resource of [src/mcp.py] are embedded as Rocq
    functions.  Handlers run in a small state-and-exception monad over
    a [world] that holds the workspace file system and the outcomes
    of the operating-system and network calls.

    Scope of the model.  A Python string is the Rocq string of its
    UTF-8 encoding: [len] counts the code points, which are the
    bytes that do not continue a character, and the size of a file
    on disk is the number of its bytes.  Integers are [Z]; a float is carried by its binary64 bit pattern
    and never computed with.  What the model calls an exception is
    an instance of Python's [Exception].  The recursion limit of the
    interpreter is modelled where the source recurses, as the number
    of nested calls there is room for.  Text files are written as on
    POSIX systems, where a newline is stored as it is, and read with
    Python's universal newlines.  A file is known by one path string:
    two strings that the operating system resolves to one file are
    outside the model. *)

From Stdlib Require Import ZArith Lia Ascii.
From stdpp Require Import gmap strings list pretty.

Local Open Scope Z_scope.
Local Open Scope string_scope.

(** ** Python values *)

(** The values that [json.loads] produces and that the handlers put
    into their result dictionaries.  A dictionary keeps its keys in
    insertion order, as Python's does. *)
#[local] Unset Elimination Schemes.
Inductive value : Type :=
| VNone
| VBool (b : bool)
| VInt (n : Z)
| VFloat (bits : Z)
| VStr (s : string)
| VList (items : list value)
| VDict (entries : list (string * value)).
#[local] Set Elimination Schemes.

Abbreviation pydict := (list (string * value)).

(** Induction over the nested lists of a [value]. *)
Section value_induction.
Variable P : value -> Prop.
Hypothesis HNone : P VNone.
Hypothesis HBool : forall b, P (VBool b).
Hypothesis HInt : forall n, P (VInt n).
Hypothesis HFloat : forall f, P (VFloat f).
Hypothesis HStr : forall s, P (VStr s).
Hypothesis HList : forall l, Forall P l -> P (VList l).
Hypothesis HDict : forall d, Forall (fun kv => P (snd kv)) d -> P (VDict d).

Fixpoint value_nested_ind (v : value) : P v :=
  match v with
  | VNone => HNone
  | VBool b => HBool b
  | VInt n => HInt n
  | VFloat f => HFloat f
  | VStr s => HStr s
  | VList l =>
      HList l
        ((fix go (l : list value) : Forall P l :=
            match l with
            | [] => Forall_nil_2 P
            | x :: r => Forall_cons_2 P x r (value_nested_ind x) (go r)
            end) l)
  | VDict d =>
      HDict d
        ((fix go (d : pydict) : Forall (fun kv => P (snd kv)) d :=
            match d with
            | [] => Forall_nil_2 _
            | (k, x) :: r =>
                Forall_cons_2 (fun kv => P (snd kv)) (k, x) r
                  (value_nested_ind x) (go r)
            end) d)
  end.
End value_induction.

(** [d[k]] / [k in d] on a dictionary literal. *)
Fixpoint dict_get (k : string) (d : pydict) : option value :=
  match d with
  | [] => None
  | (k', v) :: r => if String.eqb k k' then Some v else dict_get k r
  end.

Definition has_key (k : string) (d : pydict) : bool :=
  match dict_get k d with Some _ => true | None => false end.

(** [list(d.keys())] *)
Definition dict_keys (d : pydict) : list string := map fst d.

(** [type(v).__name__] *)
Definition type_name (v : value) : string :=
  match v with
  | VNone => "NoneType"
  | VBool _ => "bool"
  | VInt _ => "int"
  | VFloat _ => "float"
  | VStr _ => "str"
  | VList _ => "list"
  | VDict _ => "dict"
  end.

(** The byte continues a character of more than one byte: it is
    of the form [10xxxxxx]. *)
Definition is_continuation (c : ascii) : bool :=
  Nat.leb 128 (nat_of_ascii c) && Nat.ltb (nat_of_ascii c) 192.

(** [len(s)] of a string, as a Python integer: its code points, one
    for every byte that does not continue a character. *)
Fixpoint py_len (s : string) : Z :=
  match s with
  | EmptyString => 0
  | String c r => (if is_continuation c then 0 else 1) + py_len r
  end.

(** The number of bytes of the UTF-8 encoding of a text. *)
Definition utf8_size (s : string) : Z := Z.of_nat (String.length s).

(** The bytes at the head of [s] that continue a character. *)
Fixpoint continuation_run (s : string) : string :=
  match s with
  | EmptyString => EmptyString
  | String c r =>
      if is_continuation c then String c (continuation_run r) else EmptyString
  end.

(** What text mode hands to the program for the text on disk: a
    carriage return, alone or followed by a line feed, becomes one
    line feed. *)
Fixpoint universal_newlines (s : string) : string :=
  match s with
  | EmptyString => EmptyString
  | String c r =>
      if Ascii.eqb c "013"%char then
        match r with
        | String c' r' =>
            if Ascii.eqb c' "010"%char
            then String "010"%char (universal_newlines r')
            else String "010"%char (universal_newlines r)
        | EmptyString => String "010"%char EmptyString
        end
      else String c (universal_newlines r)
  end.

(** The text holds a carriage return. *)
Fixpoint has_carriage_return (s : string) : bool :=
  match s with
  | EmptyString => false
  | String c r => Ascii.eqb c "013"%char || has_carriage_return r
  end.

(** ** The nesting helper *)

(** [max(...)] over a generator that yields [x] first and then [xs];
    the source only calls it on a non-empty container. *)
Definition py_max (x : Z) (xs : list Z) : Z := fold_left Z.max xs x.

(** [_count_nested_levels(obj, level)], lines 299-310: the value the
    call returns when its recursion completes.  How the call runs
    under the recursion limit is [count_nested_levels_call] below. *)
Fixpoint _count_nested_levels (obj : value) (level : Z) : Z :=
  match obj with
  | VDict d =>
      match d with
      | [] => level
      | (_, v) :: rest =>
          py_max (_count_nested_levels v (level + 1))
            (map (fun kv => _count_nested_levels (snd kv) (level + 1)) rest)
      end
  | VList l =>
      match l with
      | [] => level
      | item :: rest =>
          py_max (_count_nested_levels item (level + 1))
            (map (fun i => _count_nested_levels i (level + 1)) rest)
      end
  | _ => level
  end.

(** The nesting depth as the specification words it: 0 for a value
    that is not a container and for an empty container, one more
    than the greatest depth among the children otherwise. *)
Fixpoint nesting_depth (v : value) : nat :=
  match v with
  | VDict d =>
      match d with
      | [] => 0
      | _ :: _ => S (max_list (map (fun kv => nesting_depth (snd kv)) d))
      end
  | VList l =>
      match l with
      | [] => 0
      | _ :: _ => S (max_list (map nesting_depth l))
      end
  | _ => 0
  end%nat.

(** ** Exceptions and the handler monad *)

(** The exception classes the handlers can meet.  Every one of them
    is a subclass of [Exception]. *)
Inductive exc_class : Type :=
| JSONDecodeError
| AttributeError
| IndexError
| KeyError
| TypeError
| OSError
| HTTPError
| OtherError (name : string).

(** An exception instance: its class and [str(e)]. *)
Record exc : Type := Exc { exc_cls : exc_class; exc_str : string }.

(** [isinstance(e, json.JSONDecodeError)] *)
Definition is_JSONDecodeError (e : exc) : bool :=
  match exc_cls e with JSONDecodeError => true | _ => false end.

Inductive outcome (A : Type) : Type :=
| Return (a : A)
| Raise (e : exc).
Arguments Return {A} a.
Arguments Raise {A} e.

(** What the interpreter raises when a call finds no room left. *)
Definition recursion_error : exc :=
  Exc (OtherError "RecursionError") "maximum recursion depth exceeded".

(** [max(...)] over a generator whose items may raise: the first
    exception met ends the iteration. *)
Definition py_max_run (first : outcome Z) (others : list (outcome Z))
  : outcome Z :=
  fold_left
    (fun acc o =>
       match acc, o with
       | Return a, Return b => Return (Z.max a b)
       | Return _, Raise e => Raise e
       | Raise e, _ => Raise e
       end)
    others first.

(** [_count_nested_levels(obj, level)], lines 299-310, as the
    interpreter runs it when there is room for [budget] nested
    calls: every call takes one, and a call with none left raises
    [RecursionError]. *)
Fixpoint count_nested_levels_call (budget : nat) (obj : value) (level : Z)
  : outcome Z :=
  match budget with
  | O => Raise recursion_error
  | S room =>
      match obj with
      | VDict d =>
          match d with
          | [] => Return level
          | (_, v) :: rest =>
              py_max_run (count_nested_levels_call room v (level + 1))
                (map (fun kv => count_nested_levels_call room (snd kv) (level + 1))
                   rest)
          end
      | VList l =>
          match l with
          | [] => Return level
          | item :: rest =>
              py_max_run (count_nested_levels_call room item (level + 1))
                (map (fun i => count_nested_levels_call room i (level + 1)) rest)
          end
      | _ => Return level
      end
  end.

(** What a budgeted call on [c] comes to: the value of the recursion
    when the depth of [c] is below the room left, [RecursionError]
    otherwise. *)
Definition child_call (room : nat) (level : Z) (c : value) : outcome Z :=
  if (nesting_depth c <? room)%nat
  then Return (_count_nested_levels c level)
  else Raise recursion_error.

(** A node of the file system: a regular file with its text and
    modification time, or a directory with what [stat] reports. *)
Inductive node : Type :=
| File (content : string) (mtime : Z)
| Directory (size mtime : Z).

(** The calls into the operating system and the HTTP client that can
    fail for reasons outside the program. *)
Inductive syscall : Type :=
| SysOpenW (path : string)
| SysWrite (path : string)
| SysOpenR (path : string)
| SysRead (path : string)
| SysStat (path : string)
| SysIsFile (path : string)
| SysUnlink (path : string)
| SysIterdir
| SysClientOpen
| SysClientClose.

(** An HTTP response: its status and what [response.json()] does. *)
Record response : Type :=
  { status_code : Z; response_json : outcome value }.

(** The state a handler runs against: the files by path, the time,
    which calls fail and with what, how many bytes reach a file when
    the write to it fails, what the network answers, and what
    [random.choice] draws. *)
Record world : Type :=
  { files : gmap string node;
    clock : Z;
    fault : syscall -> option exc;
    write_progress : string -> nat;
    http_get : string -> list (string * string) -> outcome response;
    random_index : nat }.

Definition set_files (fs : gmap string node) (w : world) : world :=
  {| files := fs; clock := clock w; fault := fault w;
     write_progress := write_progress w;
     http_get := http_get w; random_index := random_index w |}.

Definition set_random_index (i : nat) (w : world) : world :=
  {| files := files w; clock := clock w; fault := fault w;
     write_progress := write_progress w;
     http_get := http_get w; random_index := i |}.

(** The deterministic library functions the source relies on, and
    the room the interpreter has for nested calls where a handler
    runs. *)
Record platform : Type :=
  { json_loads : string -> outcome value;      (* json.loads(s) *)
    call_budget : nat;                         (* nested calls available *)
    workdir_str : string;                      (* str(WORK_DIR) *)
    workdir_join : string -> string;           (* str(WORK_DIR / filename) *)
    path_name : string -> string;              (* file_path.name *)
    in_workdir : string -> bool;               (* a direct child of WORK_DIR *)
    isoformat : Z -> string                    (* fromtimestamp(t).isoformat() *) }.

Definition M (A : Type) : Type := world -> outcome A * world.

Definition ret {A} (a : A) : M A := fun w => (Return a, w).

Definition raise {A} (e : exc) : M A := fun w => (Raise e, w).

Definition bind {A B} (c : M A) (k : A -> M B) : M B :=
  fun w =>
    match c w with
    | (Return a, w') => k a w'
    | (Raise e, w') => (Raise e, w')
    end.

(** [try: body / except Exception as e: handler(e)].  The state the
    body reached when it raised is kept. *)
Definition try_except {A} (body : M A) (handler : exc -> M A) : M A :=
  fun w =>
    match body w with
    | (Return a, w') => (Return a, w')
    | (Raise e, w') => handler e w'
    end.

Definition lift {A} (o : outcome A) : M A := fun w => (o, w).

Definition get_world : M world := fun w => (Return w, w).

Definition put_files (fs : gmap string node) : M unit :=
  fun w => (Return tt, set_files fs w).

Declare Scope handler_scope.
Delimit Scope handler_scope with handler.
Notation "x <- c ;; k" := (bind c (fun x => k))
  (at level 100, c at next level, right associativity) : handler_scope.
Notation "c ;;; k" := (bind c (fun _ => k))
  (at level 100, right associativity) : handler_scope.
Local Open Scope handler_scope.

(** Raise what the environment says this call fails with, if anything. *)
Definition check_fault (s : syscall) : M unit :=
  w <- get_world ;;
  match fault w s with
  | Some e => raise e
  | None => ret tt
  end.

(** ** File-system primitives *)

(** [file_path.exists()], as on Python 3.13 and later, where it
    answers [False] for a path it cannot reach and does not raise. *)
Definition path_exists (p : string) : M bool :=
  w <- get_world ;;
  ret (match files w !! p with Some _ => true | None => false end).

(** [file_path.is_file()]: before Python 3.13 it raises the errors
    of the underlying [stat] that do not mean that the file is
    missing. *)
Definition path_is_file (p : string) : M bool :=
  check_fault (SysIsFile p) ;;;
  w <- get_world ;;
  ret (match files w !! p with Some (File _ _) => true | _ => false end).

(** [open(file_path, 'w', encoding='utf-8')]: creates or truncates. *)
Definition open_w (p : string) : M unit :=
  check_fault (SysOpenW p) ;;;
  w <- get_world ;;
  match files w !! p with
  | Some (Directory _ _) =>
      raise (Exc OSError ("[Errno 21] Is a directory: '" ++ p ++ "'"))
  | _ => put_files (<[p := File "" (clock w)]> (files w))
  end.

(** [f.write(content)] followed by the close at the end of [with].
    When the write or the closing flush fails, the bytes written so
    far stay in the file. *)
Definition write_text (p content : string) : M unit :=
  w <- get_world ;;
  match fault w (SysWrite p) with
  | Some e =>
      put_files (<[p := File (String.substring 0 (write_progress w p) content)
                           (clock w)]> (files w)) ;;;
      raise e
  | None => put_files (<[p := File content (clock w)]> (files w))
  end.

(** [open(file_path, 'r', encoding='utf-8')] and [f.read()]: the
    text on disk with universal newlines. *)
Definition read_text (p : string) : M string :=
  check_fault (SysOpenR p) ;;;
  w <- get_world ;;
  match files w !! p with
  | Some (File content _) =>
      check_fault (SysRead p) ;;; ret (universal_newlines content)
  | Some (Directory _ _) =>
      raise (Exc OSError ("[Errno 21] Is a directory: '" ++ p ++ "'"))
  | None =>
      raise (Exc OSError ("[Errno 2] No such file or directory: '" ++ p ++ "'"))
  end.

(** [file_path.stat()], as the pair [(st_size, st_mtime)]. *)
Definition path_stat (p : string) : M (Z * Z) :=
  check_fault (SysStat p) ;;;
  w <- get_world ;;
  match files w !! p with
  | Some (File content mtime) => ret (utf8_size content, mtime)
  | Some (Directory size mtime) => ret (size, mtime)
  | None =>
      raise (Exc OSError ("[Errno 2] No such file or directory: '" ++ p ++ "'"))
  end.

(** [file_path.unlink()] *)
Definition path_unlink (p : string) : M unit :=
  check_fault (SysUnlink p) ;;;
  w <- get_world ;;
  match files w !! p with
  | Some (File _ _) => put_files (delete p (files w))
  | Some (Directory _ _) =>
      raise (Exc OSError ("[Errno 21] Is a directory: '" ++ p ++ "'"))
  | None =>
      raise (Exc OSError ("[Errno 2] No such file or directory: '" ++ p ++ "'"))
  end.

(** ** Operations on decoded JSON *)

(** [v.get(k, default)]: only a dictionary has the method. *)
Definition py_get (v : value) (k : string) (default : value) : M value :=
  match v with
  | VDict d => ret (match dict_get k d with Some x => x | None => default end)
  | _ => raise (Exc AttributeError
                  ("'" ++ type_name v ++ "' object has no attribute 'get'"))
  end.

(** [v[0]] *)
Definition py_item0 (v : value) : M value :=
  match v with
  | VList (x :: _) => ret x
  | VList [] => raise (Exc IndexError "list index out of range")
  | VStr (String c r) => ret (VStr (String c (continuation_run r)))
  | VStr EmptyString => raise (Exc IndexError "string index out of range")
  | VDict _ => raise (Exc KeyError "0")
  | _ => raise (Exc TypeError
                  ("'" ++ type_name v ++ "' object is not subscriptable"))
  end.

(** [d[k]] on a dictionary literal of the source. *)
Definition py_getitem (d : pydict) (k : string) : M value :=
  match dict_get k d with
  | Some x => ret x
  | None => raise (Exc KeyError ("'" ++ k ++ "'"))
  end.

(** [random.choice(seq)] *)
Definition random_choice {A} (seq : list A) : M A :=
  w <- get_world ;;
  match seq !! (random_index w `mod` length seq)%nat with
  | Some x => ret x
  | None => raise (Exc IndexError "Cannot choose from an empty sequence")
  end.

(** ** The HTTP client *)

(** [async with httpx.AsyncClient() as client: body], awaited to
    completion.  Leaving the block closes the client, also when the
    body returned or raised; a failing close replaces either. *)
Definition with_client {A} (body : M A) : M A :=
  check_fault SysClientOpen ;;;
  fun w =>
    match body w with
    | (r, w') =>
        match fault w' SysClientClose with
        | Some e => (Raise e, w')
        | None => (r, w')
        end
    end.

(** [await client.get(url, params=params)] *)
Definition client_get (url : string) (params : list (string * string))
  : M response :=
  w <- get_world ;;
  lift (http_get w url params).

(** ** The tool handlers *)

Section Handlers.
Variable P : platform.

(** [create_file], lines 30-65. *)
Definition create_file (filename content : string) : M pydict :=
  try_except
    (let file_path := workdir_join P filename in
     present <- path_exists file_path ;;
     if present then
       ret [("success", VBool false);
            ("error", VStr ("File " ++ filename ++ " already exists"));
            ("path", VStr file_path)]
     else
       open_w file_path ;;;
       write_text file_path content ;;;
       ret [("success", VBool true);
            ("message", VStr ("File " ++ filename ++ " created successfully"));
            ("path", VStr file_path);
            ("size", VInt (py_len content))])
    (fun e =>
       ret [("success", VBool false);
            ("error", VStr ("Failed to create file: " ++ exc_str e))]).

(** [read_file], lines 67-100. *)
Definition read_file (filename : string) : M pydict :=
  try_except
    (let file_path := workdir_join P filename in
     present <- path_exists file_path ;;
     if negb present then
       ret [("success", VBool false);
            ("error", VStr ("File " ++ filename ++ " does not exist"))]
     else
       content <- read_text file_path ;;
       st <- path_stat file_path ;;
       ret [("success", VBool true);
            ("filename", VStr filename);
            ("content", VStr content);
            ("size", VInt (py_len content));
            ("modified", VStr (isoformat P (snd st)))])
    (fun e =>
       ret [("success", VBool false);
            ("error", VStr ("Failed to read file: " ++ exc_str e))]).

(** [WORK_DIR.iterdir()] *)
Definition workdir_iterdir : M (list string) :=
  check_fault SysIterdir ;;;
  w <- get_world ;;
  ret (filter (fun p => in_workdir P p = true) (map fst (map_to_list (files w)))).

(** The [for] loop of [list_files], lines 111-119. *)
Fixpoint list_files_loop (paths : list string) (acc : list value)
  : M (list value) :=
  match paths with
  | [] => ret acc
  | file_path :: rest =>
      isf <- path_is_file file_path ;;
      if isf then
        st <- path_stat file_path ;;
        list_files_loop rest
          (acc ++ [VDict [("name", VStr (path_name P file_path));
                          ("size", VInt (fst st));
                          ("modified", VStr (isoformat P (snd st)));
                          ("path", VStr file_path)]])
      else list_files_loop rest acc
  end.

(** [list_files], lines 102-131. *)
Definition list_files : M pydict :=
  try_except
    (paths <- workdir_iterdir ;;
     found <- list_files_loop paths [] ;;
     ret [("success", VBool true);
          ("files", VList found);
          ("count", VInt (Z.of_nat (length found)));
          ("workspace", VStr (workdir_str P))])
    (fun e =>
       ret [("success", VBool false);
            ("error", VStr ("Failed to list files: " ++ exc_str e))]).

(** [delete_file], lines 133-162. *)
Definition delete_file (filename : string) : M pydict :=
  try_except
    (let file_path := workdir_join P filename in
     present <- path_exists file_path ;;
     if negb present then
       ret [("success", VBool false);
            ("error", VStr ("File " ++ filename ++ " does not exist"))]
     else
       path_unlink file_path ;;;
       ret [("success", VBool true);
            ("message", VStr ("File " ++ filename ++ " deleted successfully"))])
    (fun e =>
       ret [("success", VBool false);
            ("error", VStr ("Failed to delete file: " ++ exc_str e))]).

(** The [try] block of [get_weather], lines 176-203. *)
Definition get_weather_live (city : string) : M pydict :=
  let url := "https://api.openweathermap.org/data/2.5/weather" in
  let params := [("q", city); ("appid", "demo_key"); ("units", "metric")] in
  with_client
    (resp <- client_get url params ;;
     if Z.eqb (status_code resp) 200 then
       data <- lift (response_json resp) ;;
       name <- py_get data "name" VNone ;;
       sys <- py_get data "sys" (VDict []) ;;
       country <- py_get sys "country" VNone ;;
       main1 <- py_get data "main" (VDict []) ;;
       temp <- py_get main1 "temp" VNone ;;
       weather <- py_get data "weather" (VList [VDict []]) ;;
       first <- py_item0 weather ;;
       description <- py_get first "description" VNone ;;
       main2 <- py_get data "main" (VDict []) ;;
       humidity <- py_get main2 "humidity" VNone ;;
       main3 <- py_get data "main" (VDict []) ;;
       pressure <- py_get main3 "pressure" VNone ;;
       ret [("success", VBool true);
            ("city", name);
            ("country", country);
            ("temperature", temp);
            ("description", description);
            ("humidity", humidity);
            ("pressure", pressure)]
     else
       ret [("success", VBool false);
            ("error", VStr ("Weather API error: " ++ pretty (status_code resp)))]).

(** The [except] block of [get_weather], lines 204-214. *)
Definition get_weather_fallback (city : string) : M pydict :=
  ret [("success", VBool true);
       ("city", VStr city);
       ("temperature", VInt 22);
       ("description", VStr "partly cloudy");
       ("humidity", VInt 65);
       ("pressure", VInt 1013);
       ("note", VStr "Demo data - API key needed for real data")].

(** [get_weather], lines 165-214, awaited to completion. *)
Definition get_weather (city : string) : M pydict :=
  try_except (get_weather_live city) (fun _ => get_weather_fallback city).

(** The [try] block of [get_random_quote], lines 224-241. *)
Definition get_random_quote_live : M pydict :=
  let url := "https://api.quotable.io/random" in
  with_client
    (resp <- client_get url [] ;;
     if Z.eqb (status_code resp) 200 then
       data <- lift (response_json resp) ;;
       content <- py_get data "content" VNone ;;
       author <- py_get data "author" VNone ;;
       tags <- py_get data "tags" (VList []) ;;
       ret [("success", VBool true);
            ("quote", content);
            ("author", author);
            ("tags", tags)]
     else
       ret [("success", VBool false);
            ("error", VStr ("Quote API error: " ++ pretty (status_code resp)))]).

(** The fallback quotes, lines 244-248. *)
Definition quotes : list pydict :=
  [ [("quote", VStr "The only way to do great work is to love what you do.");
     ("author", VStr "Steve Jobs")];
    [("quote", VStr "Innovation distinguishes between a leader and a follower.");
     ("author", VStr "Steve Jobs")];
    [("quote", VStr "Life is what happens to you while you're busy making other plans.");
     ("author", VStr "John Lennon")] ].

(** The [except] block of [get_random_quote], lines 242-256. *)
Definition get_random_quote_fallback : M pydict :=
  selected <- random_choice quotes ;;
  quote <- py_getitem selected "quote" ;;
  author <- py_getitem selected "author" ;;
  ret [("success", VBool true);
       ("quote", quote);
       ("author", author);
       ("note", VStr "Fallback quote - API unavailable")].

(** [get_random_quote], lines 216-256, awaited to completion. *)
Definition get_random_quote : M pydict :=
  try_except get_random_quote_live (fun _ => get_random_quote_fallback).

(** The [try] block of [process_json_data], lines 270-286.  Of the
    entries of [analysis] only [nested_levels] can raise, so the
    call is bound first. *)
Definition process_json_data_body (json_string : string) : M pydict :=
  data <- lift (json_loads P json_string) ;;
  nested_levels <- lift (count_nested_levels_call (call_budget P) data 0) ;;
  let analysis :=
    VDict [("type", VStr (type_name data));
           ("size", VInt (py_len json_string));
           ("keys", match data with
                    | VDict d => VList (map VStr (dict_keys d))
                    | _ => VNone
                    end);
           ("length", match data with
                      | VList l => VInt (Z.of_nat (length l))
                      | VDict d => VInt (Z.of_nat (length d))
                      | _ => VNone
                      end);
           ("nested_levels", VInt nested_levels)] in
  ret [("success", VBool true);
       ("data", data);
       ("analysis", analysis);
       ("valid", VBool true)].

(** [process_json_data], lines 259-297: the first [except] clause
    that matches the exception handles it. *)
Definition process_json_data (json_string : string) : M pydict :=
  try_except (process_json_data_body json_string)
    (fun e =>
       if is_JSONDecodeError e then
         ret [("success", VBool false);
              ("error", VStr ("Invalid JSON: " ++ exc_str e));
              ("valid", VBool false)]
       else
         ret [("success", VBool false);
              ("error", VStr ("Processing error: " ++ exc_str e))]).

(** ** The invocation boundary *)

(** A call of one registered tool with its arguments. *)
Inductive request : Type :=
| CreateFile (filename content : string)
| ReadFile (filename : string)
| ListFiles
| DeleteFile (filename : string)
| GetWeather (city : string)
| GetRandomQuote
| ProcessJsonData (json_string : string).

Definition call (r : request) : M pydict :=
  match r with
  | CreateFile filename content => create_file filename content
  | ReadFile filename => read_file filename
  | ListFiles => list_files
  | DeleteFile filename => delete_file filename
  | GetWeather city => get_weather city
  | GetRandomQuote => get_random_quote
  | ProcessJsonData s => process_json_data s
  end.

(** The name each tool is registered under by [@mcp.tool()]. *)
Definition tool_name (r : request) : string :=
  match r with
  | CreateFile _ _ => "create_file"
  | ReadFile _ => "read_file"
  | ListFiles => "list_files"
  | DeleteFile _ => "delete_file"
  | GetWeather _ => "get_weather"
  | GetRandomQuote => "get_random_quote"
  | ProcessJsonData _ => "process_json_data"
  end.
(** [get_server_info], lines 313-335: the text behind the
    [server://info] resource.  [datetime.now()] reads the clock. *)
Definition get_server_info : M string :=
w <- get_world ;;
ret ("
    Advanced MCP Server Information
    ==============================
    
    Server Name: Advanced File & API Server
    Workspace: " ++ workdir_str P ++ "
    Started: " ++ isoformat P (clock w) ++ "
    
    Available Tools:
    - File Operations: create_file, read_file, list_files, delete_file
    - External APIs: get_weather, get_random_quote
    - Data Processing: process_json_data
    
    Available Resources:
    - server://info - This information page
    
    Available Prompts:
    - data_analysis_prompt - For analyzing data files
    - api_integration_prompt - For API integration guidance
    ").
End Handlers.

(** The tools in the order their [@mcp.tool()] decorations run at
    import: lines 30, 67, 102, 133, 165, 216 and 259. *)
Definition registered_tools : list string :=
  ["create_file"; "read_file"; "list_files"; "delete_file";
   "get_weather"; "get_random_quote"; "process_json_data"].

(** ** Finding names in a text *)

(** [names] occur in [s] one after the other, without overlap. *)
Inductive occurs_in_order : list string -> string -> Prop :=
| occurs_nil (s : string) : occurs_in_order [] s
| occurs_cons (n : string) (ns : list string) (pre post : string) :
    occurs_in_order ns post ->
    occurs_in_order (n :: ns) (pre ++ n ++ post).

(** What is left of [s] after its prefix [p], if [p] is one. *)
Fixpoint strip_prefix (p s : string) : option string :=
  match p, s with
  | EmptyString, _ => Some s
  | String a p', String b s' =>
      if Ascii.eqb a b then strip_prefix p' s' else None
  | String _ _, EmptyString => None
  end.

(** What follows the first occurrence of [needle] in [s]. *)
Fixpoint find_after (needle s : string) : option string :=
  match strip_prefix needle s with
  | Some r => Some r
  | None =>
      match s with
      | EmptyString => None
      | String _ s' => find_after needle s'
      end
  end.

(** Search for the names one after the other, left to right. *)
Fixpoint names_in_order (names : list string) (s : string) : bool :=
  match names with
  | [] => true
  | n :: ns =>
      match find_after n s with
      | Some r => names_in_order ns r
      | None => false
      end
  end.

(** ** Shape of a result *)

(** The keys of the envelope itself; every other key of a result
    dictionary is payload. *)
Definition envelope_key (k : string) : bool :=
  String.eqb k "success" || String.eqb k "error" || String.eqb k "note".

(** The result carries payload content. *)
Definition has_payload (d : pydict) : bool :=
  existsb (fun k => negb (envelope_key k)) (dict_keys d).

(** The [success] flag of a result, when it is a boolean. *)
Definition success_of (d : pydict) : option bool :=
  match dict_get "success" d with
  | Some (VBool b) => Some b
  | _ => None
  end.

(** What two results of one operation have in common when only
    values differ: the flag and the keys. *)
Definition shape (o : outcome pydict) : outcome (option bool * list string) :=
  match o with
  | Return d => Return (success_of d, dict_keys d)
  | Raise e => Raise e
  end.

(** A result is a well-formed envelope: a boolean [success], an
    [error] exactly when it is false, payload whenever it is true. *)
Definition well_formed (d : pydict) : Prop :=
  exists b, success_of d = Some b /\
            has_key "error" d = negb b /\
            implb b (has_payload d) = true.

(** A computation that never looks at the random draw: run with
    another draw it returns the same and leaves the same state. *)
Definition ignores_random {A} (c : M A) : Prop :=
  forall i w, c (set_random_index i w) = (fst (c w), set_random_index i (snd (c w))).

(** ** The registry and dispatcher of the specification

    [mcp.py] hands registration and dispatch to the [FastMCP]
    framework and holds no code for them.  The definitions of this
    module follow sections 3, 4.1 and 4.2 of the specification. *)
Module Dispatcher.

(** Modelled from the spec: the kinds a parameter can declare
    (section 3). *)
Inductive kind : Type := KString | KNumber | KBoolean | KObject | KArray.

(** Modelled from the spec: the two handler variants (section 3). *)
Inductive handler_mode : Type := Synchronous | Suspending.

(** Modelled from the spec: one entry of [parameterSchema], a
    triple of parameter name, required flag and kind (section 3). *)
Record param : Type :=
  { param_name : string; param_required : bool; param_kind : kind }.

(** Modelled from the spec: the Capability Descriptor of section 3.
    A handler takes the argument mapping and returns a value or
    raises; the dispatcher awaits either variant to completion. *)
Record descriptor : Type :=
  { name : string;
    parameterSchema : list param;
    mode : handler_mode;
    handler : pydict -> M value;
    fallback : option (pydict -> M value) }.

(** Modelled from the spec: the error record [{kind, message, detail?}]. *)
Record error_record : Type :=
  { error_kind : string; message : string; detail : option string }.

(** Modelled from the spec: the Envelope of section 3. *)
Record envelope : Type :=
  { success : bool;
    payload : option value;
    error : option error_record;
    note : option string }.

(** Modelled from the spec: an Envelope with an error and no payload. *)
Definition failure (k msg : string) : envelope :=
  {| success := false; payload := None;
     error := Some {| error_kind := k; message := msg; detail := None |};
     note := None |}.

(** Modelled from the spec: the Registry of section 4.1, the
    descriptors in registration order and the phase flag that is set
    by the first [lookup]. *)
Record registry : Type :=
  { descriptors : list descriptor; serving : bool }.

(** Modelled from the spec: the Registry before any registration. *)
Definition empty : registry := {| descriptors := []; serving := false |}.

(** Modelled from the spec: [name] is already present (section 4.1). *)
Definition registered (n : string) (r : registry) : bool :=
  existsb (fun d => String.eqb n (name d)) (descriptors r).

(** Modelled from the spec: [register(descriptor)] of section 4.1.
    It returns the error kind when it fails.  The specification
    names no kind for a registration after serving began; the model
    calls it [registration_closed]. *)
Definition register (d : descriptor) (r : registry)
  : option string * registry :=
  if serving r then (Some "registration_closed", r)
  else if registered (name d) r then (Some "duplicate_capability", r)
  else (None, {| descriptors := descriptors r ++ [d]; serving := false |}).

(** Modelled from the spec: [lookup(name)] of section 4.1; [None]
    stands for [UnknownCapability]. *)
Definition lookup (n : string) (r : registry)
  : option descriptor * registry :=
  (find (fun d => String.eqb n (name d)) (descriptors r),
   {| descriptors := descriptors r; serving := true |}).

(** Modelled from the spec: [list()] of section 4.1. *)
Definition list_names (r : registry) : list string :=
  map name (descriptors r).

(** Modelled from the spec: the validation helper of section 4.4. *)
Definition kind_matches (k : kind) (v : value) : bool :=
  match k, v with
  | KString, VStr _ => true
  | KNumber, VInt _ => true
  | KNumber, VFloat _ => true
  | KBoolean, VBool _ => true
  | KObject, VDict _ => true
  | KArray, VList _ => true
  | _, _ => false
  end.

(** Modelled from the spec: step 2 of section 4.2, the first
    parameter of the schema that is required and absent, or present
    with a value of another kind. *)
Fixpoint first_offending (schema : list param) (args : pydict)
  : option string :=
  match schema with
  | [] => None
  | p :: rest =>
      match dict_get (param_name p) args with
      | None =>
          if param_required p then Some (param_name p)
          else first_offending rest args
      | Some v =>
          if kind_matches (param_kind p) v then first_offending rest args
          else Some (param_name p)
      end
  end.

(** Modelled from the spec: the Invocation Request of section 3. *)
Record invocation : Type :=
  { operation : string; arguments : pydict }.

(** Modelled from the spec: steps 3 to 5 of section 4.2, given the
    classification of transient faults. *)
Definition execute (transient : exc -> bool) (d : descriptor)
  (args : pydict) (w : world) : envelope * world :=
  match handler d args w with
  | (Return v, w') =>
      ({| success := true; payload := Some v; error := None; note := None |}, w')
  | (Raise e, w') =>
      match (if transient e then fallback d else None) with
      | Some fb =>
          match fb args w' with
          | (Return v, w'') =>
              ({| success := true; payload := Some v; error := None;
                  note := Some "served from fallback" |}, w'')
          | (Raise e', w'') => (failure "fallback_failed" (exc_str e'), w'')
          end
      | None => (failure "handler_error" (exc_str e), w')
      end
  end.

(** Modelled from the spec: [invoke(request)] of section 4.2. *)
Definition invoke (transient : exc -> bool) (req : invocation)
  (r : registry) (w : world) : envelope * registry * world :=
  match lookup (operation req) r with
  | (None, r') =>
      (failure "unknown_operation" (operation req), r', w)
  | (Some d, r') =>
      match first_offending (parameterSchema d) (arguments req) with
      | Some q => (failure "invalid_arguments" ("invalid argument: " ++ q), r', w)
      | None =>
          match execute transient d (arguments req) w with
          | (env, w') => (env, r', w')
          end
      end
  end.

End Dispatcher.

(** ** The operations that have a fallback *)

Inductive fallback_tool : Type :=
| WeatherTool (city : string)
| QuoteTool.

(** The [try] block: the live lookup. *)
Definition live_path (t : fallback_tool) : M pydict :=
  match t with
  | WeatherTool city => get_weather_live city
  | QuoteTool => get_random_quote_live
  end.

(** The handler as registered. *)
Definition fallback_handler (t : fallback_tool) : M pydict :=
  match t with
  | WeatherTool city => get_weather city
  | QuoteTool => get_random_quote
  end.

(** ** What [json.loads] says about a text *)

(** [s] is valid JSON and decodes to [v]. *)
Definition parses_to (P : platform) (s : string) (v : value) : Prop :=
  json_loads P s = Return v.

(** [json.loads] rejects [s] with the [JSONDecodeError] [e]. *)
Definition parse_fails (P : platform) (s : string) (e : exc) : Prop :=
  json_loads P s = Raise e /\ is_JSONDecodeError e = true.

(** ** A concrete platform and concrete worlds *)

Module Demo.

(** A decoder that knows a few documents and rejects every other
    text the way [json.loads] rejects a malformed one. *)
Definition documents : list (string * value) :=
  [("[]", VList []);
   ("[[1], 2]", VList [VList [VInt 1]; VInt 2]);
   ("null", VNone);
   ("42", VInt 42)].

Definition loads (s : string) : outcome value :=
  match dict_get s documents with
  | Some v => Return v
  | None => Raise (Exc JSONDecodeError "Expecting value: line 1 column 1 (char 0)")
  end.

Definition platform : platform :=
  {| json_loads := loads;
     call_budget := 300;
     workdir_str := "mcp_workspace";
     workdir_join := fun f => "mcp_workspace/" ++ f;
     path_name := fun p =>
       match strip_prefix "mcp_workspace/" p with Some n => n | None => p end;
     in_workdir := fun p =>
       match strip_prefix "mcp_workspace/" p with Some _ => true | None => false end;
     isoformat := fun t => pretty t |}.

(** A workspace with one file, no failing system call, and no network. *)
Definition offline : world :=
  {| files := {[ "mcp_workspace/notes.txt" := File "hello" 1700000000 ]};
     clock := 1700000100;
     fault := fun _ => None;
     write_progress := fun _ => 0%nat;
     http_get := fun _ _ => Raise (Exc HTTPError "All connection attempts failed");
     random_index := 1 |}.

(** The same workspace with a network that answers every request. *)
Definition online : world :=
  {| files := files offline;
     clock := clock offline;
     fault := fault offline;
     write_progress := write_progress offline;
     http_get := fun _ _ =>
       Return {| status_code := 200;
                 response_json :=
                   Return (VDict [("name", VStr "Paris");
                                  ("sys", VDict [("country", VStr "FR")]);
                                  ("main", VDict [("temp", VInt 18);
                                                  ("humidity", VInt 70);
                                                  ("pressure", VInt 1011)]);
                                  ("weather",
                                   VList [VDict [("description", VStr "clear sky")]]);
                                  ("content", VStr "Stay curious.");
                                  ("author", VStr "Anonymous")]) |};
     random_index := 0 |}.

(** The [echo] capability of section 8 of the specification. *)
Definition echo : Dispatcher.descriptor :=
  {| Dispatcher.name := "echo";
     Dispatcher.parameterSchema :=
       [ {| Dispatcher.param_name := "text";
            Dispatcher.param_required := true;
            Dispatcher.param_kind := Dispatcher.KString |} ];
     Dispatcher.mode := Dispatcher.Synchronous;
     Dispatcher.handler := fun args =>
       text <- py_getitem args "text" ;;
       ret (VDict [("echoed", text)]);
     Dispatcher.fallback := None |}.

Definition echo_registry : Dispatcher.registry :=
  snd (Dispatcher.register echo Dispatcher.empty).

End Demo.

(** ** Prompt templates *)

(** [data_analysis_prompt], lines 338-357. *)
Definition data_analysis_prompt (data_type objective : string) : string :=
  "
    You are a data analysis expert. Please help analyze " ++ data_type ++ " data with the following objective: " ++ objective ++ "
    
    Please provide:
    1. Initial data exploration steps
    2. Relevant statistical measures or metrics
    3. Visualization recommendations
    4. Key insights to look for
    5. Potential pitfalls or limitations to consider
    
    Make your analysis thorough but accessible to non-experts.
    ".

(** [api_integration_prompt], lines 359-379. *)
Definition api_integration_prompt (api_name use_case : string) : string :=
  "
    You are an API integration specialist. Please provide guidance for integrating " ++ api_name ++ " API for the following use case: " ++ use_case ++ "
    
    Please include:
    1. Authentication requirements
    2. Rate limiting considerations
    3. Error handling strategies
    4. Data transformation needs
    5. Testing approaches
    6. Security best practices
    
    Provide practical, production-ready advice.
    ".

(** ** Footprint of a call *)

(** The one path a call may change, if any. *)
Definition target_path (P : platform) (req : request) : option string :=
  match req with
  | CreateFile filename _ => Some (workdir_join P filename)
  | DeleteFile filename => Some (workdir_join P filename)
  | _ => None
  end.

(** A computation that leaves the world as it found it. *)
Definition preserves_world {A} (c : M A) : Prop :=
  forall w, snd (c w) = w.

(** The [path] field of one entry of a file listing. *)
Definition entry_path (e : value) : option string :=
  match e with
  | VDict d =>
      match dict_get "path" d with
      | Some (VStr p) => Some p
      | _ => None
      end
  | _ => None
  end.

(** The entry [list_files] builds for the file at [p]. *)
Definition file_entry (P : platform) (p content : string) (mtime : Z) : value :=
  VDict [("name", VStr (path_name P p));
         ("size", VInt (utf8_size content));
         ("modified", VStr (isoformat P mtime));
         ("path", VStr p)].

(** The path holds a regular file. *)
Definition is_file_at (w : world) (p : string) : bool :=
  match files w !! p with Some (File _ _) => true | _ => false end.

(** What the loop of [list_files] collects from [paths]: one entry
    for each path that holds a regular file, in the order met. *)
Definition listing (P : platform) (w : world) (paths : list string)
  : list value :=
  flat_map (fun p =>
              match files w !! p with
              | Some (File content mtime) => [file_entry P p content mtime]
              | _ => []
              end) paths.

(** The values directly inside a container. *)
Definition children (v : value) : list value :=
  match v with
  | VList l => l
  | VDict d => map snd d
  | _ => []
  end.

(** [v] is [None] where [o] is absent: what [d.get(k)] returns. *)
Definition or_none (o : option value) : value :=
  match o with Some v => v | None => VNone end.

(** [v] is [fallback] where [o] is absent: what [d.get(k, fallback)]
    returns. *)
Definition or_default (fallback : value) (o : option value) : value :=
  match o with Some v => v | None => fallback end.

(** ** Further worlds *)

Module Scenario.

(** The disk fills up: every write fails after three bytes. *)
Definition disk_full : world :=
  {| files := files Demo.offline;
     clock := clock Demo.offline;
     fault := fun s =>
       match s with
       | SysWrite _ => Some (Exc OSError "[Errno 28] No space left on device")
       | _ => None
       end;
     write_progress := fun _ => 3%nat;
     http_get := http_get Demo.offline;
     random_index := 0 |}.

(** The workspace holds a file and a directory. *)
Definition with_directory : world :=
  {| files := {[ "mcp_workspace/notes.txt" := File "hello" 1700000000;
                 "mcp_workspace/archive" := Directory 4096 1690000000 ]};
     clock := clock Demo.offline;
     fault := fault Demo.offline;
     write_progress := write_progress Demo.offline;
     http_get := http_get Demo.offline;
     random_index := 0 |}.

(** The service rejects the key: every request is answered 401. *)
Definition unauthorized : world :=
  {| files := files Demo.offline;
     clock := clock Demo.offline;
     fault := fault Demo.offline;
     write_progress := write_progress Demo.offline;
     http_get := fun _ _ =>
       Return {| status_code := 401;
                 response_json := Return (VDict [("cod", VInt 401)]) |};
     random_index := 0 |}.

(** The service answers 200 with a body that is not an object. *)
Definition malformed : world :=
  {| files := files Demo.offline;
     clock := clock Demo.offline;
     fault := fault Demo.offline;
     write_progress := write_progress Demo.offline;
     http_get := fun _ _ =>
       Return {| status_code := 200; response_json := Return (VList []) |};
     random_index := 2 |}.

(** The service answers as in [Demo.online], and closing the client fails. *)
Definition broken_close : world :=
  {| files := files Demo.online;
     clock := clock Demo.online;
     fault := fun s =>
       match s with
       | SysClientClose => Some (Exc (OtherError "RuntimeError") "Event loop is closed")
       | _ => None
       end;
     write_progress := write_progress Demo.online;
     http_get := http_get Demo.online;
     random_index := 0 |}.

(** The word with an e acute, which takes two bytes. *)
Definition cafe : string :=
  String "c" (String "a" (String "f"
    (String (ascii_of_nat 195) (String (ascii_of_nat 169) EmptyString)))).

(** Two lines parted the way Windows parts them. *)
Definition windows_lines : string :=
  String "a" (String "013" (String "010" (String "b" EmptyString))).

(** [n] lists, one inside the other, around [v]. *)
Definition nest (n : nat) (v : value) : value :=
  Nat.iter n (fun x => VList [x]) v.

(** [n] copies of [s], one after the other. *)
Definition repeat_string (n : nat) (s : string) : string :=
  Nat.iter n (fun r => s ++ r) "".

(** Four hundred opening brackets and as many closing ones, and the
    value the text decodes to. *)
Definition deep_text : string :=
  repeat_string 400 "[" ++ repeat_string 400 "]".

Definition deep_value : value := nest 399 (VList []).

(** An integer literal of 4301 digits, beyond what [int] converts. *)
Definition long_digits : string := repeat_string 4301 "1".

(** A decoder that knows the two texts above beside those of
    [Demo.loads]. *)
Definition deep_platform : platform :=
  {| json_loads := fun s =>
       if String.eqb s deep_text then Return deep_value
       else if String.eqb s long_digits then
         Raise (Exc (OtherError "ValueError")
                  "Exceeds the limit (4300 digits) for integer string conversion: value has 4301 digits; use sys.set_int_max_str_digits() to increase the limit")
       else Demo.loads s;
     call_budget := call_budget Demo.platform;
     workdir_str := workdir_str Demo.platform;
     workdir_join := workdir_join Demo.platform;
     path_name := path_name Demo.platform;
     in_workdir := in_workdir Demo.platform;
     isoformat := isoformat Demo.platform |}.

End Scenario.

(** * Theorems *)

(** ** The nesting depth *)

Lemma py_max_of_nat (k : Z) (xs : list nat) :
  forall a, py_max (k + Z.of_nat a) (map (fun n => k + Z.of_nat n) xs)
            = k + Z.of_nat (max_list (a :: xs)).
Proof.
  unfold py_max. induction xs as [|x xs IH]; intros a; simpl.
  - f_equal. lia.
  - replace (Z.max (k + Z.of_nat a) (k + Z.of_nat x))
      with (k + Z.of_nat (a `max` x)) by lia.
    rewrite IH. simpl. f_equal. lia.
Qed.

Lemma count_nested_levels_shift (v : value) :
  forall level,
    _count_nested_levels v level = level + Z.of_nat (nesting_depth v).
Proof.
  induction v as [| | | | |l IH|d IH] using value_nested_ind; intros level;
    simpl; try lia.
  - destruct l as [|c rest]; [simpl; lia|].
    inversion IH as [|? ? Hc Hrest]; subst.
    rewrite Hc.
    replace (map (fun i => _count_nested_levels i (level + 1)) rest)
      with (map (fun n => (level + 1) + Z.of_nat n) (map nesting_depth rest)).
    + rewrite py_max_of_nat. simpl. lia.
    + rewrite map_map. apply map_ext_Forall.
      eapply Forall_impl; [exact Hrest|]. intros x Hx. symmetry. apply Hx.
  - destruct d as [|[k c] rest]; [simpl; lia|].
    inversion IH as [|? ? Hc Hrest]; subst. simpl in Hc.
    rewrite Hc.
    replace (map (fun kv => _count_nested_levels (snd kv) (level + 1)) rest)
      with (map (fun n => (level + 1) + Z.of_nat n)
              (map (fun kv => nesting_depth (snd kv)) rest)).
    + rewrite py_max_of_nat. simpl. lia.
    + rewrite map_map. apply map_ext_Forall.
      eapply Forall_impl; [exact Hrest|]. intros x Hx. symmetry. apply Hx.
Qed.

Lemma py_max_run_children (room : nat) (level : Z) (rest : list value) :
  forall (m : nat) (a : Z),
    fold_left
      (fun acc o =>
         match acc, o with
         | Return a, Return b => Return (Z.max a b)
         | Return _, Raise e => Raise e
         | Raise e, _ => Raise e
         end)
      (map (child_call room level) rest)
      (if (m <? room)%nat then Return a else Raise recursion_error)
    = if (m `max` max_list (map nesting_depth rest) <? room)%nat
      then Return (fold_left Z.max (map (fun c => _count_nested_levels c level) rest) a)
      else Raise recursion_error.
Proof.
  induction rest as [|x rest IH]; intros m a; simpl.
  - by rewrite Nat.max_0_r.
  - replace (match (if (m <? room)%nat then Return a else Raise recursion_error)
             with
             | Return a0 =>
                 match child_call room level x with
                 | Return b => Return (Z.max a0 b)
                 | Raise e => Raise e
                 end
             | Raise e => Raise e
             end)
      with (if (m `max` nesting_depth x <? room)%nat
            then Return (Z.max a (_count_nested_levels x level))
            else Raise recursion_error).
    + rewrite IH. by rewrite Nat.max_assoc.
    + unfold child_call.
      destruct (Nat.ltb_spec m room), (Nat.ltb_spec (nesting_depth x) room),
        (Nat.ltb_spec (m `max` nesting_depth x) room); try reflexivity; lia.
Qed.

(** How the budgeted call ends: with the value of the recursion when
    the nesting depth is below the budget, with [RecursionError]
    otherwise. *)
Lemma count_nested_levels_call_spec (budget : nat) :
  forall v level,
    count_nested_levels_call budget v level
    = if (nesting_depth v <? budget)%nat
      then Return (_count_nested_levels v level)
      else Raise recursion_error.
Proof.
  induction budget as [|room IH]; intros v level; [reflexivity|].
  assert (Hchildren : forall (c0 : value) (rest : list value),
             py_max_run (count_nested_levels_call room c0 (level + 1))
               (map (fun i => count_nested_levels_call room i (level + 1)) rest)
             = if (max_list (map nesting_depth (c0 :: rest)) <? room)%nat
               then Return (py_max (_count_nested_levels c0 (level + 1))
                              (map (fun i => _count_nested_levels i (level + 1))
                                 rest))
               else Raise recursion_error).
  { intros c0 rest. unfold py_max_run, py_max.
    rewrite (map_ext _ (child_call room (level + 1)))
      by (intros c; apply IH).
    rewrite IH. apply py_max_run_children. }
  destruct v as [| | | | |[|c0 rest]|[|[k c0] rest]]; try reflexivity.
  - cbn [count_nested_levels_call]. rewrite Hchildren. reflexivity.
  - cbn [count_nested_levels_call].
    replace (map (fun kv => count_nested_levels_call room (snd kv) (level + 1)) rest)
      with (map (fun i => count_nested_levels_call room i (level + 1))
              (map snd rest)) by (by rewrite map_map).
    rewrite Hchildren. cbn [nesting_depth _count_nested_levels].
    replace (map (fun kv => nesting_depth (snd kv)) ((k, c0) :: rest))
      with (map nesting_depth (c0 :: map snd rest))
      by (simpl; by rewrite map_map).
    replace (map (fun kv => _count_nested_levels (snd kv) (level + 1)) rest)
      with (map (fun i => _count_nested_levels i (level + 1)) (map snd rest))
      by (by rewrite map_map).
    reflexivity.
Qed.

(** Four hundred nested lists decode, and the nesting helper finds
    no room to walk them. *)
Example count_nested_levels_call_deep :
  nesting_depth Scenario.deep_value = 399%nat /\
  count_nested_levels_call (call_budget Demo.platform) Scenario.deep_value 0
  = Raise recursion_error.
Proof. split; vm_compute; reflexivity. Qed.

(** C7, as stated, fails: on four hundred nested lists, a value that
    [json.loads] produces, the call does not return the nesting
    depth but raises [RecursionError]. *)
Lemma count_nested_levels_overflows :
  ~ (forall (P : platform) (v : value),
        count_nested_levels_call (call_budget P) v 0
        = Return (Z.of_nat (nesting_depth v))).
Proof.
  intros H. specialize (H Demo.platform Scenario.deep_value).
  vm_compute in H. discriminate.
Qed.

(** C7, amended.  [_count_nested_levels(v, 0)] returns the nesting
    depth of [v], 0 for scalars and empty containers and one more
    than the deepest child otherwise, whenever that depth is below
    the number of nested calls the interpreter has room for; on a
    deeper value it raises [RecursionError]. *)
Theorem count_nested_levels_within_budget (budget : nat) (v : value) :
  count_nested_levels_call budget v 0
  = if (nesting_depth v <? budget)%nat
    then Return (Z.of_nat (nesting_depth v))
    else Raise recursion_error.
Proof.
  rewrite count_nested_levels_call_spec, count_nested_levels_shift.
  by rewrite Z.add_0_l.
Qed.

(** The nesting depth is the greatest over the children plus one:
    it bounds the depth of every child and some child attains it. *)
Lemma nesting_depth_children (v : value) :
  (children v = [] -> nesting_depth v = 0%nat) /\
  (children v <> [] ->
   (forall c, In c (children v) -> (nesting_depth c < nesting_depth v)%nat) /\
   (exists c, In c (children v) /\ nesting_depth v = S (nesting_depth c))).
Proof.
  assert (Hmax : forall l : list value, l <> [] ->
             (forall c, In c l -> (nesting_depth c <= max_list (map nesting_depth l))%nat)
             /\ exists c, In c l /\ max_list (map nesting_depth l) = nesting_depth c).
  { induction l as [|x l IH]; [done|]. intros _. destruct l as [|y l'].
    - simpl. split; [intros c [<-|[]]; lia|]. exists x. split; [by left|lia].
    - destruct IH as [Hle (c & Hc & Hm)]; [done|]. split.
      + intros c' [<-|Hc']; [simpl; lia|]. specialize (Hle c' Hc').
        change (max_list (map nesting_depth (x :: y :: l')))
          with (nesting_depth x `max` max_list (map nesting_depth (y :: l')))%nat.
        lia.
      + change (max_list (map nesting_depth (x :: y :: l')))
          with (nesting_depth x `max` max_list (map nesting_depth (y :: l')))%nat.
        destruct (Nat.max_spec (nesting_depth x)
                    (max_list (map nesting_depth (y :: l')))) as [[_ ->]|[_ ->]].
        * exists c. split; [by right | exact Hm].
        * exists x. split; [by left | reflexivity]. }
  destruct v as [| | | | |l|d]; simpl; try (split; [done|intros []; done]).
  - destruct l as [|x l]; [split; [done|intros []; done]|].
    split; [discriminate|]. intros _.
    destruct (Hmax (x :: l)) as [Hle (c & Hc & Hm)]; [done|]. split.
    + intros c' Hc'. specialize (Hle c' Hc'). lia.
    + exists c. split; [exact Hc|]. by rewrite Hm.
  - destruct d as [|kv d]; [split; [done|intros []; done]|].
    split; [discriminate|]. intros _.
    destruct (Hmax (map snd (kv :: d))) as [Hle (c & Hc & Hm)]; [done|].
    rewrite map_map in Hle, Hm. split.
    + intros c' Hc'. specialize (Hle c' Hc'). lia.
    + exists c. split; [exact Hc|]. by rewrite Hm.
Qed.

(** ** Running handlers *)

Lemma bind_Return_inv {A B} (c : M A) (k : A -> M B) w b w' :
  bind c k w = (Return b, w') ->
  exists a w1, c w = (Return a, w1) /\ k a w1 = (Return b, w').
Proof.
  unfold bind. destruct (c w) as [[a|e] w1]; intros H; [eauto|discriminate].
Qed.

Lemma try_except_returns {A} (Q : A -> Prop) (body : M A) (handler : exc -> M A) :
  (forall w a w', body w = (Return a, w') -> Q a) ->
  (forall e w, exists a w', handler e w = (Return a, w') /\ Q a) ->
  forall w, exists a w', try_except body handler w = (Return a, w') /\ Q a.
Proof.
  intros Hbody Hhandler w. unfold try_except.
  destruct (body w) as [[a|e] w1] eqn:Hrun.
  - exists a, w1. split; [reflexivity|]. eapply Hbody, Hrun.
  - apply Hhandler.
Qed.

Ltac wf_literal := exists true + exists false; repeat split; reflexivity.

Ltac run :=
  cbv [bind ret raise lift get_world put_files check_fault try_except
       path_exists path_is_file open_w write_text read_text path_stat
       path_unlink py_get py_item0 py_getitem random_choice with_client
       client_get];
  repeat (case_match; simplify_eq/=; try discriminate).

Ltac returns_wf := eexists _, _; split; [reflexivity | wf_literal].

Lemma create_file_wf P filename content w :
  exists d w', create_file P filename content w = (Return d, w') /\ well_formed d.
Proof. unfold create_file. run; returns_wf. Qed.

Lemma read_file_wf P filename w :
  exists d w', read_file P filename w = (Return d, w') /\ well_formed d.
Proof. unfold read_file. run; returns_wf. Qed.

Lemma delete_file_wf P filename w :
  exists d w', delete_file P filename w = (Return d, w') /\ well_formed d.
Proof. unfold delete_file. run; returns_wf. Qed.

Lemma list_files_wf P w :
  exists d w', list_files P w = (Return d, w') /\ well_formed d.
Proof.
  unfold list_files, try_except, bind.
  destruct (workdir_iterdir P w) as [[paths|e] w1]; [|returns_wf].
  destruct (list_files_loop P paths [] w1) as [[found|e] w2]; returns_wf.
Qed.

(** *** The live lookups *)

Lemma with_client_Return_inv {A} (body : M A) w a w' :
  with_client body w = (Return a, w') -> body w = (Return a, w').
Proof.
  unfold with_client, bind, check_fault, get_world, raise, ret. cbn.
  destruct (fault w SysClientOpen); cbn; [discriminate|].
  destruct (body w) as [r w1]. destruct (fault w1 SysClientClose); [discriminate|].
  intros H. exact H.
Qed.

Lemma py_get_Return_inv v k default w x w' :
  py_get v k default w = (Return x, w') -> w' = w.
Proof. destruct v; unfold py_get, ret, raise; intros H; by simplify_eq. Qed.

Lemma py_item0_Return_inv v w x w' :
  py_item0 v w = (Return x, w') -> w' = w.
Proof.
  destruct v as [| | | |[|? ?]|[|? ?]|]; unfold py_item0, ret, raise;
    intros H; by simplify_eq.
Qed.

Ltac peel H :=
  let H1 := fresh "Hstep" in
  apply bind_Return_inv in H as (? & ? & H1 & H);
  first [ apply py_get_Return_inv in H1
        | apply py_item0_Return_inv in H1
        | idtac ].

(** What the live weather lookup can return. *)
Lemma get_weather_live_Return city w d w' :
  get_weather_live city w = (Return d, w') ->
  (exists name country temp description humidity pressure,
      d = [("success", VBool true); ("city", name); ("country", country);
           ("temperature", temp); ("description", description);
           ("humidity", humidity); ("pressure", pressure)])
  \/ (exists msg, d = [("success", VBool false); ("error", VStr msg)]).
Proof.
  unfold get_weather_live. intros H.
  apply with_client_Return_inv in H. peel H.
  destruct (Z.eqb _ 200).
  - do 13 peel H. unfold ret in H. simplify_eq. left. by eexists _, _, _, _, _, _.
  - unfold ret in H. simplify_eq. right. by eexists.
Qed.

(** What the live quote lookup can return. *)
Lemma get_random_quote_live_Return w d w' :
  get_random_quote_live w = (Return d, w') ->
  (exists content author tags,
      d = [("success", VBool true); ("quote", content);
           ("author", author); ("tags", tags)])
  \/ (exists msg, d = [("success", VBool false); ("error", VStr msg)]).
Proof.
  unfold get_random_quote_live. intros H.
  apply with_client_Return_inv in H. peel H.
  destruct (Z.eqb _ 200).
  - do 4 peel H. unfold ret in H. simplify_eq. left. by eexists _, _, _.
  - unfold ret in H. simplify_eq. right. by eexists.
Qed.

(** The fallback quote is always produced. *)
Lemma get_random_quote_fallback_Return w :
  exists quote author,
    get_random_quote_fallback w =
      (Return [("success", VBool true); ("quote", quote); ("author", author);
               ("note", VStr "Fallback quote - API unavailable")], w).
Proof.
  unfold get_random_quote_fallback, random_choice, bind, get_world, ret.
  assert (Hlt : (random_index w `mod` length quotes < 3)%nat)
    by (apply Nat.mod_upper_bound; discriminate).
  destruct (random_index w `mod` length quotes)%nat as [|[|[|n]]]; simpl;
    [by eexists _, _ ..|lia].
Qed.

Lemma get_weather_wf city w :
  exists d w', get_weather city w = (Return d, w') /\ well_formed d.
Proof.
  apply (try_except_returns well_formed).
  - intros w0 d w' H.
    apply get_weather_live_Return in H as [(?&?&?&?&?&?&->)|(?&->)]; wf_literal.
  - intros e w0. unfold get_weather_fallback, ret. returns_wf.
Qed.

Lemma get_random_quote_wf w :
  exists d w', get_random_quote w = (Return d, w') /\ well_formed d.
Proof.
  apply (try_except_returns well_formed).
  - intros w0 d w' H.
    apply get_random_quote_live_Return in H as [(?&?&?&->)|(?&->)]; wf_literal.
  - intros e w0.
    destruct (get_random_quote_fallback_Return w0) as (q & a & ->).
    returns_wf.
Qed.

(** What [process_json_data] returns, by what [json.loads] and the
    nesting helper do. *)
Lemma process_json_data_run P s w :
  process_json_data P s w
  = (Return
       (let failed (e : exc) :=
          if is_JSONDecodeError e then
            [("success", VBool false);
             ("error", VStr ("Invalid JSON: " ++ exc_str e));
             ("valid", VBool false)]
          else
            [("success", VBool false);
             ("error", VStr ("Processing error: " ++ exc_str e))] in
        match json_loads P s with
        | Return v =>
            match count_nested_levels_call (call_budget P) v 0 with
            | Return n =>
                [("success", VBool true);
                 ("data", v);
                 ("analysis",
                  VDict [("type", VStr (type_name v));
                         ("size", VInt (py_len s));
                         ("keys", match v with
                                  | VDict d => VList (map VStr (dict_keys d))
                                  | _ => VNone
                                  end);
                         ("length", match v with
                                    | VList l => VInt (Z.of_nat (length l))
                                    | VDict d => VInt (Z.of_nat (length d))
                                    | _ => VNone
                                    end);
                         ("nested_levels", VInt n)]);
                 ("valid", VBool true)]
            | Raise e => failed e
            end
        | Raise e => failed e
        end), w).
Proof.
  unfold process_json_data, process_json_data_body, try_except, bind, lift, ret.
  destruct (json_loads P s) as [v|e].
  - destruct (count_nested_levels_call (call_budget P) v 0) as [n|e];
      [reflexivity|].
    destruct (is_JSONDecodeError e); reflexivity.
  - destruct (is_JSONDecodeError e); reflexivity.
Qed.

Lemma process_json_data_wf P s w :
  exists d w', process_json_data P s w = (Return d, w') /\ well_formed d.
Proof.
  rewrite process_json_data_run. eexists _, _. split; [reflexivity|]. cbv zeta.
  destruct (json_loads P s) as [v|e].
  - destruct (count_nested_levels_call (call_budget P) v 0) as [n|e];
      [wf_literal|].
    destruct (is_JSONDecodeError e); wf_literal.
  - destruct (is_JSONDecodeError e); wf_literal.
Qed.

(** Every call of a registered tool returns a well-formed envelope. *)
Lemma call_wf P req w :
  exists d w', call P req w = (Return d, w') /\ well_formed d.
Proof.
  destruct req; simpl.
  - apply create_file_wf.
  - apply read_file_wf.
  - apply list_files_wf.
  - apply delete_file_wf.
  - apply get_weather_wf.
  - apply get_random_quote_wf.
  - apply process_json_data_wf.
Qed.

(** C1.  Every registered operation is total at the invocation
    boundary: for every platform, request and world, the handler
    returns a result dictionary whose [success] key holds a boolean,
    and raises nothing. *)
Theorem handlers_total (P : platform) (req : request) (w : world) :
  exists d w' b,
    call P req w = (Return d, w') /\ dict_get "success" d = Some (VBool b).
Proof.
  destruct (call_wf P req w) as (d & w' & Hrun & b & Hs & _).
  exists d, w', b. split; [exact Hrun|].
  unfold success_of in Hs.
  destruct (dict_get "success" d) as [[]|]; by simplify_eq.
Qed.

(** ** Envelope shape *)

(** On a file that exists, [create_file] reports the error and the
    path side by side. *)
Example create_file_existing_result :
  fst (call Demo.platform (CreateFile "notes.txt" "new text") Demo.offline)
  = Return [("success", VBool false);
            ("error", VStr "File notes.txt already exists");
            ("path", VStr "mcp_workspace/notes.txt")].
Proof. reflexivity. Qed.

(** On a text that does not decode, [process_json_data] reports the
    error and the [valid] field side by side. *)
Example process_json_data_invalid_result :
  fst (call Demo.platform (ProcessJsonData "[1,") Demo.offline)
  = Return [("success", VBool false);
            ("error", VStr "Invalid JSON: Expecting value: line 1 column 1 (char 0)");
            ("valid", VBool false)].
Proof. reflexivity. Qed.

(** C2, as stated, fails: the result of [create_file] on an existing
    file has [success] false and an [error], and carries the payload
    field [path] as well, so payload is not present only on success. *)
Lemma envelope_exclusivity_fails :
  ~ (forall (P : platform) (req : request) (w : world) (d : pydict) (w' : world),
        call P req w = (Return d, w') ->
        exists b, success_of d = Some b /\
                  (has_key "error" d = true <-> b = false) /\
                  (has_payload d = true <-> b = true)).
Proof.
  intros H.
  destruct (H Demo.platform (CreateFile "notes.txt" "new text") Demo.offline
              _ _ eq_refl) as (b & Hs & _ & Hp).
  vm_compute in Hs. simplify_eq.
  destruct Hp as [Hp _]. specialize (Hp eq_refl). discriminate.
Qed.

(** C2, amended.  For every operation and every input the result
    holds an [error] field exactly when [success] is false, and every
    result with [success] true carries payload content and no
    [error].  A failing result may carry further fields next to
    [error]. *)
Theorem envelope_error_iff_failure (P : platform) (req : request) (w : world) :
  exists d w' b,
    call P req w = (Return d, w') /\
    success_of d = Some b /\
    (has_key "error" d = true <-> b = false) /\
    (b = true -> has_payload d = true /\ has_key "error" d = false).
Proof.
  destruct (call_wf P req w) as (d & w' & Hrun & b & Hs & He & Hp).
  exists d, w', b. split; [exact Hrun|]. split; [exact Hs|]. split.
  - rewrite He. by destruct b.
  - intros ->. split; [exact Hp | exact He].
Qed.

(** ** Fallbacks *)

(** C3.  For the two operations with a fallback: when the live
    lookup raises, the handler returns [success = true] with a
    [note] key; when the live lookup returns, the handler returns
    that very result and it has no [note] key. *)
Theorem fallback_labeling (t : fallback_tool) (w : world)
  (o : outcome pydict) (w1 : world) (Hlive : live_path t w = (o, w1)) :
  exists d w',
    fallback_handler t w = (Return d, w') /\
    match o with
    | Raise _ => success_of d = Some true /\ has_key "note" d = true
    | Return d0 => d = d0 /\ has_key "note" d = false
    end.
Proof.
  destruct t as [city|]; simpl in *.
  - unfold get_weather, try_except. rewrite Hlive. destruct o as [d0|e].
    + exists d0, w1. split; [reflexivity|]. split; [reflexivity|].
      apply get_weather_live_Return in Hlive as [(?&?&?&?&?&?&->)|(?&->)];
        reflexivity.
    + unfold get_weather_fallback, ret. eexists _, _.
      split; [reflexivity|]. split; reflexivity.
  - unfold get_random_quote, try_except. rewrite Hlive. destruct o as [d0|e].
    + exists d0, w1. split; [reflexivity|]. split; [reflexivity|].
      apply get_random_quote_live_Return in Hlive as [(?&?&?&->)|(?&->)];
        reflexivity.
    + destruct (get_random_quote_fallback_Return w1) as (q & a & ->).
      eexists _, _. split; [reflexivity|]. split; reflexivity.
Qed.

(** With no network the weather lookup falls back and says so. *)
Lemma fallback_labeling_witness :
  exists d w',
    fallback_handler (WeatherTool "Paris") Demo.offline = (Return d, w') /\
    success_of d = Some true /\ has_key "note" d = true.
Proof.
  exact (fallback_labeling (WeatherTool "Paris") Demo.offline
           (Raise (Exc HTTPError "All connection attempts failed"))
           Demo.offline eq_refl).
Defined.

(** With a network that answers, the live result has no [note]. *)
Example get_weather_online :
  fst (get_weather "Paris" Demo.online)
  = Return [("success", VBool true); ("city", VStr "Paris");
            ("country", VStr "FR"); ("temperature", VInt 18);
            ("description", VStr "clear sky"); ("humidity", VInt 70);
            ("pressure", VInt 1011)].
Proof. reflexivity. Qed.

(** ** The JSON analyzer *)

(** Four hundred nested lists are valid JSON, and the analyzer
    answers with a processing error that has no [valid] field. *)
Example process_json_data_deep_result :
  process_json_data Scenario.deep_platform Scenario.deep_text Demo.offline
  = (Return [("success", VBool false);
             ("error", VStr "Processing error: maximum recursion depth exceeded")],
     Demo.offline).
Proof. vm_compute. reflexivity. Qed.

(** A text that [json.loads] rejects with an exception other than
    [JSONDecodeError] is answered the same way. *)
Example process_json_data_long_digits_result :
  exists e,
    json_loads Scenario.deep_platform Scenario.long_digits = Raise e /\
    is_JSONDecodeError e = false /\
    process_json_data Scenario.deep_platform Scenario.long_digits Demo.offline
    = (Return [("success", VBool false);
               ("error", VStr ("Processing error: " ++ exc_str e))],
       Demo.offline).
Proof. eexists. split; [vm_compute; reflexivity|]. split; vm_compute; reflexivity. Qed.

(** C8, as stated, fails: [json.loads] accepts the text of four
    hundred nested lists, and [process_json_data] does not return
    [success = true] for it. *)
Lemma process_json_data_parse_iff_fails :
  ~ (forall (P : platform) (s : string) (w : world),
        exists d,
          process_json_data P s w = (Return d, w) /\
          (forall v,
              (success_of d = Some true /\
               dict_get "data" d = Some v /\
               dict_get "valid" d = Some (VBool true))
              <-> json_loads P s = Return v) /\
          (forall e,
              json_loads P s = Raise e ->
              success_of d = Some false /\
              dict_get "valid" d = Some (VBool false) /\
              exists rest, dict_get "error" d = Some (VStr ("Invalid JSON" ++ rest)))).
Proof.
  intros H.
  destruct (H Scenario.deep_platform Scenario.deep_text Demo.offline)
    as (d & Hrun & Hiff & _).
  rewrite process_json_data_deep_result in Hrun. simplify_eq.
  destruct (Hiff Scenario.deep_value) as [_ Hback].
  destruct Hback as (Hs & _); [vm_compute; reflexivity|]. discriminate.
Qed.

(** C8, amended.  [process_json_data(s)] returns [success = true]
    with [data] the decoded value and [valid = true] exactly when
    [json.loads] accepts [s] and the nesting of the value is below
    the recursion budget.  When [json.loads] raises
    [JSONDecodeError] it returns [success = false], [valid = false]
    and an error message that begins with "Invalid JSON".  When
    [json.loads] raises another exception, or the value is nested
    too deeply for the nesting helper, it returns [success = false]
    with a message that begins with "Processing error" and no
    [valid] field. *)
Theorem process_json_data_outcomes (P : platform) (s : string) (w : world) :
  exists d,
    process_json_data P s w = (Return d, w) /\
    (forall v,
        (success_of d = Some true /\
         dict_get "data" d = Some v /\
         dict_get "valid" d = Some (VBool true))
        <-> (parses_to P s v /\ (nesting_depth v < call_budget P)%nat)) /\
    (forall e,
        parse_fails P s e ->
        success_of d = Some false /\
        dict_get "valid" d = Some (VBool false) /\
        dict_get "error" d = Some (VStr ("Invalid JSON" ++ ": " ++ exc_str e))) /\
    (forall e,
        json_loads P s = Raise e -> is_JSONDecodeError e = false ->
        d = [("success", VBool false);
             ("error", VStr ("Processing error" ++ ": " ++ exc_str e))]) /\
    (forall v,
        parses_to P s v -> (call_budget P <= nesting_depth v)%nat ->
        d = [("success", VBool false);
             ("error", VStr ("Processing error" ++ ": "
                             ++ "maximum recursion depth exceeded"))]).
Proof.
  rewrite process_json_data_run. eexists. split; [reflexivity|]. cbv zeta.
  unfold parses_to, parse_fails.
  destruct (json_loads P s) as [v0|e0].
  - rewrite count_nested_levels_call_spec.
    destruct (Nat.ltb_spec (nesting_depth v0) (call_budget P)) as [Hfit|Hdeep].
    + split; [|split; [|split]].
      * intros v. simpl. split.
        -- intros (_ & Hd & _). by simplify_eq.
        -- intros [Hv _]. by simplify_eq.
      * intros e [He _]. discriminate.
      * intros e He. discriminate.
      * intros v Hv Hle. simplify_eq. lia.
    + split; [|split; [|split]].
      * intros v. split; [intros (Hs & _); discriminate|].
        intros [Hv Hlt]. simplify_eq. lia.
      * intros e [He _]. discriminate.
      * intros e He. discriminate.
      * intros v Hv Hle. reflexivity.
  - destruct (is_JSONDecodeError e0) eqn:Hcls; (split; [|split; [|split]]).
    + intros v. split; [intros (Hs & _); discriminate | intros [? _]; discriminate].
    + intros e [He _]. by simplify_eq.
    + intros e He Hc. simplify_eq. congruence.
    + intros v Hv. discriminate.
    + intros v. split; [intros (Hs & _); discriminate | intros [? _]; discriminate].
    + intros e [He Hc]. simplify_eq. congruence.
    + intros e He Hc. by simplify_eq.
    + intros v Hv. discriminate.
Qed.

(** ** [create_file] on an existing path *)

(** C9.  When the target path of [filename] exists, [create_file]
    returns [success = false] with the error "File <filename> already
    exists", and the world, the file system with it, is what it was. *)
Theorem create_file_never_overwrites (P : platform) (filename content : string)
  (w : world) (n : node)
  (Hexists : files w !! workdir_join P filename = Some n) :
  create_file P filename content w
  = (Return [("success", VBool false);
             ("error", VStr ("File " ++ filename ++ " already exists"));
             ("path", VStr (workdir_join P filename))],
     w).
Proof.
  unfold create_file, try_except, bind, path_exists, get_world, ret. cbn.
  rewrite Hexists. reflexivity.
Qed.

Lemma create_file_never_overwrites_witness :
  create_file Demo.platform "notes.txt" "new text" Demo.offline
  = (Return [("success", VBool false);
             ("error", VStr "File notes.txt already exists");
             ("path", VStr "mcp_workspace/notes.txt")],
     Demo.offline)
  /\ files Demo.offline !! "mcp_workspace/notes.txt" = Some (File "hello" 1700000000).
Proof.
  split.
  - exact (create_file_never_overwrites Demo.platform "notes.txt" "new text"
             Demo.offline (File "hello" 1700000000) eq_refl).
  - reflexivity.
Defined.

(** Decoding succeeds on a nested list and the analysis measures it. *)
Example process_json_data_valid_result :
  fst (call Demo.platform (ProcessJsonData "[[1], 2]") Demo.offline)
  = Return [("success", VBool true);
            ("data", VList [VList [VInt 1]; VInt 2]);
            ("analysis", VDict [("type", VStr "list"); ("size", VInt 8);
                                ("keys", VNone); ("length", VInt 2);
                                ("nested_levels", VInt 2)]);
            ("valid", VBool true)].
Proof. reflexivity. Qed.

(** ** Repeated invocation *)

Lemma ignores_random_ret {A} (a : A) : ignores_random (ret a).
Proof. intros i w. reflexivity. Qed.

Lemma ignores_random_raise {A} (e : exc) : ignores_random (@raise A e).
Proof. intros i w. reflexivity. Qed.

Lemma ignores_random_lift {A} (o : outcome A) : ignores_random (lift o).
Proof. intros i w. reflexivity. Qed.

Lemma ignores_random_bind {A B} (c : M A) (k : A -> M B) :
  ignores_random c -> (forall a, ignores_random (k a)) -> ignores_random (bind c k).
Proof.
  intros Hc Hk i w. unfold bind. rewrite Hc.
  destruct (c w) as [[a|e] w1]; simpl; [apply Hk | reflexivity].
Qed.

Lemma ignores_random_try_except {A} (body : M A) (handler : exc -> M A) :
  ignores_random body -> (forall e, ignores_random (handler e)) ->
  ignores_random (try_except body handler).
Proof.
  intros Hc Hk i w. unfold try_except. rewrite Hc.
  destruct (body w) as [[a|e] w1]; simpl; [reflexivity | apply Hk].
Qed.

Ltac prim_ignores :=
  intros ? ?;
  cbv [bind ret raise lift get_world put_files check_fault
       path_exists path_is_file open_w write_text read_text path_stat
       path_unlink py_get py_item0 py_getitem client_get];
  cbn; repeat (case_match; simplify_eq/=); reflexivity.

Lemma ignores_random_check_fault s : ignores_random (check_fault s).
Proof. prim_ignores. Qed.

Lemma ignores_random_path_exists p : ignores_random (path_exists p).
Proof. prim_ignores. Qed.

Lemma ignores_random_path_is_file p : ignores_random (path_is_file p).
Proof. prim_ignores. Qed.

Lemma ignores_random_open_w p : ignores_random (open_w p).
Proof. prim_ignores. Qed.

Lemma ignores_random_write_text p c : ignores_random (write_text p c).
Proof. prim_ignores. Qed.

Lemma ignores_random_read_text p : ignores_random (read_text p).
Proof. prim_ignores. Qed.

Lemma ignores_random_path_stat p : ignores_random (path_stat p).
Proof. prim_ignores. Qed.

Lemma ignores_random_path_unlink p : ignores_random (path_unlink p).
Proof. prim_ignores. Qed.

Lemma ignores_random_client_get url params : ignores_random (client_get url params).
Proof. prim_ignores. Qed.

Lemma ignores_random_py_get v k default : ignores_random (py_get v k default).
Proof. destruct v; prim_ignores. Qed.

Lemma ignores_random_py_item0 v : ignores_random (py_item0 v).
Proof. destruct v as [| | | |[|? ?]|[|? ?]|]; prim_ignores. Qed.

Lemma ignores_random_with_client {A} (body : M A) :
  ignores_random body -> ignores_random (with_client body).
Proof.
  intros Hb i w. unfold with_client, bind, check_fault, get_world, raise, ret.
  cbn. destruct (fault w SysClientOpen); cbn; [reflexivity|].
  rewrite Hb. destruct (body w) as [r w1]. cbn.
  destruct (fault w1 SysClientClose); reflexivity.
Qed.

Lemma ignores_random_workdir_iterdir P : ignores_random (workdir_iterdir P).
Proof.
  intros i w. unfold workdir_iterdir, bind, check_fault, get_world, raise, ret.
  cbn. destruct (fault w SysIterdir); reflexivity.
Qed.

Create HintDb ignores_random.
#[local] Hint Resolve ignores_random_ret ignores_random_raise ignores_random_lift
  ignores_random_check_fault ignores_random_path_exists ignores_random_path_is_file
  ignores_random_open_w ignores_random_write_text ignores_random_read_text
  ignores_random_path_stat ignores_random_path_unlink ignores_random_client_get
  ignores_random_py_get ignores_random_py_item0 ignores_random_workdir_iterdir
  : ignores_random.

Ltac ignores :=
  repeat first
    [ solve [auto with ignores_random]
    | apply ignores_random_try_except; [|intros ?]
    | apply ignores_random_with_client
    | apply ignores_random_bind; [|intros ?]
    | match goal with
      | |- ignores_random (if ?b then _ else _) => destruct b
      end
    | progress cbv zeta ].

Lemma ignores_random_list_files_loop P paths :
  forall acc, ignores_random (list_files_loop P paths acc).
Proof.
  induction paths as [|p rest IH]; intros acc; simpl; ignores.
Qed.

Lemma ignores_random_create_file P filename content :
  ignores_random (create_file P filename content).
Proof. unfold create_file. ignores. Qed.

Lemma ignores_random_read_file P filename : ignores_random (read_file P filename).
Proof. unfold read_file. ignores. Qed.

Lemma ignores_random_list_files P : ignores_random (list_files P).
Proof.
  unfold list_files. pose proof (ignores_random_list_files_loop P). ignores.
Qed.

Lemma ignores_random_delete_file P filename : ignores_random (delete_file P filename).
Proof. unfold delete_file. ignores. Qed.

Lemma ignores_random_get_weather city : ignores_random (get_weather city).
Proof. unfold get_weather, get_weather_live, get_weather_fallback. ignores. Qed.

Lemma ignores_random_get_random_quote_live : ignores_random get_random_quote_live.
Proof. unfold get_random_quote_live. ignores. Qed.

Lemma ignores_random_process_json_data P s : ignores_random (process_json_data P s).
Proof. unfold process_json_data, process_json_data_body. ignores. Qed.

Lemma ignores_random_fst {A} (c : M A) i w :
  ignores_random c -> fst (c (set_random_index i w)) = fst (c w).
Proof. intros H. by rewrite H. Qed.

(** The analyzer does not read the world. *)
Lemma process_json_data_any_world P s w1 w2 :
  fst (process_json_data P s w1) = fst (process_json_data P s w2).
Proof.
  by rewrite !process_json_data_run.
Qed.

(** C6.  Two invocations of one operation with the same arguments,
    from the same state of the world, return results with the same
    [success] value and the same keys, whatever the random draw of
    either; two invocations of [process_json_data] on the same text
    return identical results from any two worlds, and the handler
    leaves the world as it found it. *)
Theorem repeated_invocation (P : platform) :
  (forall req w i,
      shape (fst (call P req (set_random_index i w))) = shape (fst (call P req w)))
  /\ (forall s w1 w2,
        fst (call P (ProcessJsonData s) w1) = fst (call P (ProcessJsonData s) w2))
  /\ (forall s w, snd (call P (ProcessJsonData s) w) = w).
Proof.
  split; [|split].
  - intros req w i. destruct req; cbn [call].
    + f_equal. apply ignores_random_fst, ignores_random_create_file.
    + f_equal. apply ignores_random_fst, ignores_random_read_file.
    + f_equal. apply ignores_random_fst, ignores_random_list_files.
    + f_equal. apply ignores_random_fst, ignores_random_delete_file.
    + f_equal. apply ignores_random_fst, ignores_random_get_weather.
    + unfold get_random_quote, try_except.
      rewrite ignores_random_get_random_quote_live.
      destruct (get_random_quote_live w) as [[d|e] w1]; simpl; [reflexivity|].
      destruct (get_random_quote_fallback_Return (set_random_index i w1))
        as (q1 & a1 & ->).
      destruct (get_random_quote_fallback_Return w1) as (q2 & a2 & ->).
      reflexivity.
    + f_equal. apply ignores_random_fst, ignores_random_process_json_data.
  - intros s w1 w2. simpl. apply process_json_data_any_world.
  - intros s w. simpl. by rewrite process_json_data_run.
Qed.

(** The draw decides which fallback quote is served. *)
Example get_random_quote_draws :
  fst (get_random_quote Demo.offline)
  = Return [("success", VBool true);
            ("quote", VStr "Innovation distinguishes between a leader and a follower.");
            ("author", VStr "Steve Jobs");
            ("note", VStr "Fallback quote - API unavailable")]
  /\ fst (get_random_quote (set_random_index 2 Demo.offline))
  = Return [("success", VBool true);
            ("quote", VStr "Life is what happens to you while you're busy making other plans.");
            ("author", VStr "John Lennon");
            ("note", VStr "Fallback quote - API unavailable")].
Proof. split; reflexivity. Qed.

(** ** The server information resource *)

Lemma strip_prefix_sound p : forall s r, strip_prefix p s = Some r -> s = p ++ r.
Proof.
  induction p as [|a p IH]; intros s r H; simpl in *.
  - by simplify_eq.
  - destruct s as [|b s]; [discriminate|].
    destruct (Ascii.eqb a b) eqn:Hab; [|discriminate].
    apply Ascii.eqb_eq in Hab as ->.
    change (String b s = String b (p ++ r)). f_equal. by apply IH.
Qed.

Lemma find_after_sound needle s :
  forall r, find_after needle s = Some r -> exists pre, s = pre ++ needle ++ r.
Proof.
  induction s as [|c s IH]; intros r H; simpl in H.
  - destruct (strip_prefix needle EmptyString) eqn:Hp; [|discriminate].
    simplify_eq. exists EmptyString. exact (strip_prefix_sound _ _ _ Hp).
  - destruct (strip_prefix needle (String c s)) eqn:Hp.
    + simplify_eq. exists EmptyString. exact (strip_prefix_sound _ _ _ Hp).
    + destruct (IH _ H) as [pre ->]. exists (String c pre). reflexivity.
Qed.

Lemma names_in_order_sound names :
  forall s, names_in_order names s = true -> occurs_in_order names s.
Proof.
  induction names as [|n ns IH]; intros s H; simpl in H.
  - constructor.
  - destruct (find_after n s) as [r|] eqn:Hf; [|discriminate].
    destruct (find_after_sound _ _ _ Hf) as [pre ->].
    constructor. by apply IH.
Qed.

Lemma string_app_assoc (a b c : string) : (a ++ b) ++ c = a ++ (b ++ c).
Proof.
  induction a as [|x a IH]; [reflexivity|].
  change (String x ((a ++ b) ++ c) = String x (a ++ (b ++ c))). by rewrite IH.
Qed.

Lemma occurs_in_order_prefix names pre s :
  occurs_in_order names s -> occurs_in_order names (pre ++ s).
Proof.
  intros H. destruct H as [s|n ns p post H].
  - constructor.
  - rewrite <- string_app_assoc. by constructor.
Qed.

(** C10.  The text of the [server://info] resource names all seven
    registered tools, in the order of their registration, and every
    tool that can be called is one of the seven. *)
Theorem get_server_info_lists_tools (P : platform) (w : world) :
  exists text,
    get_server_info P w = (Return text, w) /\
    occurs_in_order registered_tools text /\
    length registered_tools = 7%nat /\
    (forall req, In (tool_name req) registered_tools).
Proof.
  eexists. split; [reflexivity|]. split; [|split].
  - do 4 apply occurs_in_order_prefix.
    apply names_in_order_sound. vm_compute. reflexivity.
  - reflexivity.
  - intros req. destruct req; simpl; tauto.
Qed.

(** The order is read off the text: another order of the same names
    is not found in it. *)
Example get_server_info_order :
  forall text, fst (get_server_info Demo.platform Demo.offline) = Return text ->
    names_in_order registered_tools text = true /\
    names_in_order (rev registered_tools) text = false.
Proof. intros text H. vm_compute in H. simplify_eq. split; vm_compute; reflexivity. Qed.

(** ** Registry and dispatcher *)

Lemma first_offending_missing schema args (p : Dispatcher.param) :
  In p schema ->
  Dispatcher.param_required p = true ->
  dict_get (Dispatcher.param_name p) args = None ->
  exists q, Dispatcher.first_offending schema args = Some q.
Proof.
  intros Hin Hreq Habs. induction schema as [|p0 rest IH]; [destruct Hin|].
  simpl. destruct Hin as [->|Hin].
  - rewrite Habs, Hreq. by eexists.
  - destruct (dict_get (Dispatcher.param_name p0) args) as [v|].
    + destruct (Dispatcher.kind_matches _ v); [by apply IH | by eexists].
    + destruct (Dispatcher.param_required p0); [by eexists | by apply IH].
Qed.

(** C4.  When the requested operation resolves to a descriptor and
    the request omits one of its required parameters, [invoke]
    returns [success = false] with [error.kind = "invalid_arguments"]
    and a message that ends with the name of the first offending
    parameter; the world is the one before the call, so no part of
    the handler has run. *)
Theorem invoke_missing_required (transient : exc -> bool)
  (req : Dispatcher.invocation) (r r' : Dispatcher.registry) (w : world)
  (d : Dispatcher.descriptor) (p : Dispatcher.param)
  (Hlookup : Dispatcher.lookup (Dispatcher.operation req) r = (Some d, r'))
  (Hin : In p (Dispatcher.parameterSchema d))
  (Hreq : Dispatcher.param_required p = true)
  (Habsent : dict_get (Dispatcher.param_name p) (Dispatcher.arguments req) = None) :
  exists q env,
    Dispatcher.first_offending (Dispatcher.parameterSchema d)
      (Dispatcher.arguments req) = Some q /\
    Dispatcher.invoke transient req r w = (env, r', w) /\
    Dispatcher.success env = false /\
    Dispatcher.payload env = None /\
    Dispatcher.error env
    = Some {| Dispatcher.error_kind := "invalid_arguments";
              Dispatcher.message := "invalid argument: " ++ q;
              Dispatcher.detail := None |}.
Proof.
  destruct (first_offending_missing _ _ _ Hin Hreq Habsent) as [q Hq].
  exists q. eexists. split; [exact Hq|].
  unfold Dispatcher.invoke. rewrite Hlookup, Hq.
  repeat split; reflexivity.
Qed.

(** The [echo] scenario of the specification: [invoke("echo", {})]. *)
Lemma invoke_missing_required_witness :
  exists q env,
    Dispatcher.first_offending (Dispatcher.parameterSchema Demo.echo) [] = Some q /\
    Dispatcher.invoke (fun _ => false)
      {| Dispatcher.operation := "echo"; Dispatcher.arguments := [] |}
      Demo.echo_registry Demo.offline
    = (env,
       {| Dispatcher.descriptors := [Demo.echo]; Dispatcher.serving := true |},
       Demo.offline) /\
    Dispatcher.success env = false /\
    Dispatcher.payload env = None /\
    Dispatcher.error env
    = Some {| Dispatcher.error_kind := "invalid_arguments";
              Dispatcher.message := "invalid argument: " ++ q;
              Dispatcher.detail := None |}.
Proof.
  exact (invoke_missing_required (fun _ => false)
           {| Dispatcher.operation := "echo"; Dispatcher.arguments := [] |}
           Demo.echo_registry
           {| Dispatcher.descriptors := [Demo.echo]; Dispatcher.serving := true |}
           Demo.offline Demo.echo
           {| Dispatcher.param_name := "text";
              Dispatcher.param_required := true;
              Dispatcher.param_kind := Dispatcher.KString |}
           eq_refl (or_introl eq_refl) eq_refl eq_refl).
Defined.

Lemma registered_app n (l : list Dispatcher.descriptor) d s :
  Dispatcher.name d = n ->
  Dispatcher.registered n
    {| Dispatcher.descriptors := l ++ [d]; Dispatcher.serving := s |} = true.
Proof.
  intros <-. unfold Dispatcher.registered. simpl.
  rewrite existsb_app. simpl. rewrite String.eqb_refl.
  by rewrite orb_true_r.
Qed.

(** C5.  When [register] has accepted a descriptor, registering a
    descriptor of the same name next fails with
    [duplicate_capability] and leaves the registry exactly as the
    first call left it. *)
Theorem register_twice_atomic (d d' : Dispatcher.descriptor)
  (r r1 : Dispatcher.registry)
  (Hfirst : Dispatcher.register d r = (None, r1))
  (Hname : Dispatcher.name d' = Dispatcher.name d) :
  Dispatcher.register d' r1 = (Some "duplicate_capability", r1).
Proof.
  unfold Dispatcher.register in Hfirst.
  destruct (Dispatcher.serving r); [discriminate|].
  destruct (Dispatcher.registered (Dispatcher.name d) r); [discriminate|].
  simplify_eq. unfold Dispatcher.register. simpl.
  by rewrite registered_app.
Qed.

Lemma register_twice_atomic_witness :
  Dispatcher.register Demo.echo Demo.echo_registry
  = (Some "duplicate_capability", Demo.echo_registry)
  /\ Dispatcher.list_names Demo.echo_registry = ["echo"].
Proof.
  split.
  - exact (register_twice_atomic Demo.echo Demo.echo Dispatcher.empty
             Demo.echo_registry eq_refl eq_refl).
  - reflexivity.
Defined.

(** * Further properties of the handlers *)

(** ** Files: what a call returns and leaves behind *)

Lemma set_files_same w : set_files (files w) w = w.
Proof. by destruct w. Qed.

Ltac step_fs :=
  cbv [create_file read_file delete_file try_except bind ret raise lift
       get_world put_files check_fault path_exists open_w write_text
       read_text path_stat path_unlink];
  cbn.

Lemma create_file_fresh P filename content w :
  files w !! workdir_join P filename = None ->
  fault w (SysOpenW (workdir_join P filename)) = None ->
  fault w (SysWrite (workdir_join P filename)) = None ->
  create_file P filename content w
  = (Return [("success", VBool true);
             ("message", VStr ("File " ++ filename ++ " created successfully"));
             ("path", VStr (workdir_join P filename));
             ("size", VInt (py_len content))],
     set_files (<[workdir_join P filename := File content (clock w)]> (files w)) w).
Proof.
  intros Habsent Hopen Hwrite. step_fs.
  rewrite Habsent, Hopen. cbn. rewrite Habsent. cbn. rewrite Hwrite. cbn.
  unfold set_files. cbn. by rewrite insert_insert_eq.
Qed.

Lemma universal_newlines_plain (s : string) :
  has_carriage_return s = false -> universal_newlines s = s.
Proof.
  induction s as [|c r IH]; [reflexivity|]. simpl.
  destruct (Ascii.eqb c "013"%char); [discriminate|].
  simpl. intros H. by rewrite IH.
Qed.

Lemma substring_prefix (n : nat) :
  forall s, exists rest, s = String.substring 0 n s ++ rest.
Proof.
  induction n as [|n IH]; intros s.
  - exists s. by destruct s.
  - destruct s as [|c r]; [by exists EmptyString|].
    destruct (IH r) as [rest Hrest]. exists rest.
    cbn [String.substring]. change (String c r = String c (String.substring 0 n r ++ rest)).
    by rewrite <- Hrest.
Qed.

Lemma create_file_present P filename content w n :
  files w !! workdir_join P filename = Some n ->
  create_file P filename content w
  = (Return [("success", VBool false);
             ("error", VStr ("File " ++ filename ++ " already exists"));
             ("path", VStr (workdir_join P filename))],
     w).
Proof. intros Hn. step_fs. by rewrite Hn. Qed.

Lemma read_file_present P filename w content mtime :
  files w !! workdir_join P filename = Some (File content mtime) ->
  fault w (SysOpenR (workdir_join P filename)) = None ->
  fault w (SysRead (workdir_join P filename)) = None ->
  fault w (SysStat (workdir_join P filename)) = None ->
  read_file P filename w
  = (Return [("success", VBool true);
             ("filename", VStr filename);
             ("content", VStr (universal_newlines content));
             ("size", VInt (py_len (universal_newlines content)));
             ("modified", VStr (isoformat P mtime))],
     w).
Proof.
  intros Hn Hopen Hread Hstat. step_fs.
  rewrite Hn. cbn. rewrite Hopen. cbn. rewrite Hn. cbn. rewrite Hread. cbn.
  rewrite Hstat. cbn. by rewrite Hn.
Qed.

Lemma read_file_absent P filename w :
  files w !! workdir_join P filename = None ->
  read_file P filename w
  = (Return [("success", VBool false);
             ("error", VStr ("File " ++ filename ++ " does not exist"))],
     w).
Proof. intros Hn. step_fs. by rewrite Hn. Qed.

Lemma delete_file_absent P filename w :
  files w !! workdir_join P filename = None ->
  delete_file P filename w
  = (Return [("success", VBool false);
             ("error", VStr ("File " ++ filename ++ " does not exist"))],
     w).
Proof. intros Hn. step_fs. by rewrite Hn. Qed.

Lemma delete_file_present P filename w content mtime :
  files w !! workdir_join P filename = Some (File content mtime) ->
  fault w (SysUnlink (workdir_join P filename)) = None ->
  delete_file P filename w
  = (Return [("success", VBool true);
             ("message", VStr ("File " ++ filename ++ " deleted successfully"))],
     set_files (delete (workdir_join P filename) (files w)) w).
Proof.
  intros Hn Hunlink. step_fs.
  rewrite Hn. cbn. rewrite Hunlink. cbn. by rewrite Hn.
Qed.

(** X1.  Round trip.  When the target path is free and neither the
    writing nor the reading calls fail, [create_file] succeeds and
    reports the number of code points of the content, and a
    [read_file] of the same name afterwards returns the content with
    each ["\r\n"] and ["\r"] turned into a newline, its length, and
    the time of the write; a content without carriage return comes
    back as it was written. *)
Theorem create_then_read (P : platform) (filename content : string) (w : world)
  (Habsent : files w !! workdir_join P filename = None)
  (Hopenw : fault w (SysOpenW (workdir_join P filename)) = None)
  (Hwrite : fault w (SysWrite (workdir_join P filename)) = None)
  (Hopenr : fault w (SysOpenR (workdir_join P filename)) = None)
  (Hread : fault w (SysRead (workdir_join P filename)) = None)
  (Hstat : fault w (SysStat (workdir_join P filename)) = None) :
  exists d1 w1,
    create_file P filename content w = (Return d1, w1) /\
    success_of d1 = Some true /\
    dict_get "size" d1 = Some (VInt (py_len content)) /\
    read_file P filename w1
    = (Return [("success", VBool true);
               ("filename", VStr filename);
               ("content", VStr (universal_newlines content));
               ("size", VInt (py_len (universal_newlines content)));
               ("modified", VStr (isoformat P (clock w)))],
       w1) /\
    (has_carriage_return content = false -> universal_newlines content = content).
Proof.
  eexists _, _. split; [by apply create_file_fresh|].
  split; [reflexivity|]. split; [reflexivity|].
  split; [|apply universal_newlines_plain].
  apply read_file_present; cbn; try assumption.
  apply lookup_insert_eq.
Qed.

Lemma create_then_read_witness :
  exists d1 w1,
    create_file Demo.platform "todo.txt" Scenario.windows_lines Demo.offline
    = (Return d1, w1) /\
    success_of d1 = Some true /\
    dict_get "size" d1 = Some (VInt 4) /\
    read_file Demo.platform "todo.txt" w1
    = (Return [("success", VBool true);
               ("filename", VStr "todo.txt");
               ("content", VStr (String "a" (String "010" (String "b" EmptyString))));
               ("size", VInt 3);
               ("modified", VStr "1700000100")],
       w1) /\
    (has_carriage_return Scenario.windows_lines = false ->
     universal_newlines Scenario.windows_lines = Scenario.windows_lines).
Proof.
  exact (create_then_read Demo.platform "todo.txt" Scenario.windows_lines
           Demo.offline eq_refl eq_refl eq_refl eq_refl eq_refl eq_refl).
Defined.

(** A text without carriage return is read back as written. *)
Example create_then_read_plain :
  exists w1,
    snd (create_file Demo.platform "todo.txt" "buy milk" Demo.offline) = w1 /\
    fst (read_file Demo.platform "todo.txt" w1)
    = Return [("success", VBool true);
              ("filename", VStr "todo.txt");
              ("content", VStr "buy milk");
              ("size", VInt 8);
              ("modified", VStr "1700000100")].
Proof. eexists. split; reflexivity. Qed.

(** A text of four code points in five bytes: [create_file] and
    [read_file] report four, the listing reports five. *)
Example create_then_read_non_ascii :
  exists w1,
    create_file Demo.platform "menu.txt" Scenario.cafe Demo.offline
    = (Return [("success", VBool true);
               ("message", VStr "File menu.txt created successfully");
               ("path", VStr "mcp_workspace/menu.txt");
               ("size", VInt 4)], w1) /\
    dict_get "size" (match fst (read_file Demo.platform "menu.txt" w1) with
                     | Return d => d
                     | Raise _ => []
                     end) = Some (VInt 4) /\
    files w1 !! "mcp_workspace/menu.txt" = Some (File Scenario.cafe 1700000100) /\
    file_entry Demo.platform "mcp_workspace/menu.txt" Scenario.cafe 1700000100
    = VDict [("name", VStr "menu.txt"); ("size", VInt 5);
             ("modified", VStr "1700000100");
             ("path", VStr "mcp_workspace/menu.txt")].
Proof. eexists. split; [reflexivity|]. split; [|split]; reflexivity. Qed.

(** X2.  No second creation.  After a successful [create_file], a
    further [create_file] of the same name, with any content, fails
    with "already exists" and the file keeps the first content. *)
Theorem create_then_create (P : platform) (filename content content' : string)
  (w : world)
  (Habsent : files w !! workdir_join P filename = None)
  (Hopenw : fault w (SysOpenW (workdir_join P filename)) = None)
  (Hwrite : fault w (SysWrite (workdir_join P filename)) = None) :
  exists d1 w1,
    create_file P filename content w = (Return d1, w1) /\
    success_of d1 = Some true /\
    create_file P filename content' w1
    = (Return [("success", VBool false);
               ("error", VStr ("File " ++ filename ++ " already exists"));
               ("path", VStr (workdir_join P filename))],
       w1) /\
    files w1 !! workdir_join P filename = Some (File content (clock w)).
Proof.
  eexists _, _. split; [by apply create_file_fresh|].
  split; [reflexivity|].
  assert (Hnow : files (set_files (<[workdir_join P filename :=
                                       File content (clock w)]> (files w)) w)
                 !! workdir_join P filename = Some (File content (clock w)))
    by apply lookup_insert_eq.
  split; [|exact Hnow].
  eapply create_file_present, Hnow.
Qed.

Lemma create_then_create_witness :
  exists d1 w1,
    create_file Demo.platform "todo.txt" "buy milk" Demo.offline = (Return d1, w1) /\
    success_of d1 = Some true /\
    create_file Demo.platform "todo.txt" "sell milk" w1
    = (Return [("success", VBool false);
               ("error", VStr "File todo.txt already exists");
               ("path", VStr "mcp_workspace/todo.txt")],
       w1) /\
    files w1 !! "mcp_workspace/todo.txt" = Some (File "buy milk" 1700000100).
Proof.
  exact (create_then_create Demo.platform "todo.txt" "buy milk" "sell milk"
           Demo.offline eq_refl eq_refl eq_refl).
Defined.

(** X3.  Creation is undone by deletion.  When the target path is
    free and no call fails, [create_file] followed by [delete_file]
    of the same name succeeds twice and leaves the world exactly as
    it was before the two calls. *)
Theorem create_then_delete (P : platform) (filename content : string) (w : world)
  (Habsent : files w !! workdir_join P filename = None)
  (Hopenw : fault w (SysOpenW (workdir_join P filename)) = None)
  (Hwrite : fault w (SysWrite (workdir_join P filename)) = None)
  (Hunlink : fault w (SysUnlink (workdir_join P filename)) = None) :
  exists d1 w1 d2,
    create_file P filename content w = (Return d1, w1) /\
    success_of d1 = Some true /\
    delete_file P filename w1 = (Return d2, w) /\
    success_of d2 = Some true.
Proof.
  eexists _, _, _. split; [by apply create_file_fresh|].
  split; [reflexivity|]. split.
  - erewrite delete_file_present; [|apply lookup_insert_eq|exact Hunlink].
    unfold set_files. cbn.
    rewrite delete_insert_id by exact Habsent.
    destruct w. reflexivity.
  - reflexivity.
Qed.

Lemma create_then_delete_witness :
  exists d1 w1 d2,
    create_file Demo.platform "todo.txt" "buy milk" Demo.offline = (Return d1, w1) /\
    success_of d1 = Some true /\
    delete_file Demo.platform "todo.txt" w1 = (Return d2, Demo.offline) /\
    success_of d2 = Some true.
Proof.
  exact (create_then_delete Demo.platform "todo.txt" "buy milk" Demo.offline
           eq_refl eq_refl eq_refl eq_refl).
Defined.

(** X4.  A deleted file is gone.  After a successful [delete_file],
    the path is absent: [read_file] and a second [delete_file] of the
    same name both fail with "does not exist" and change nothing. *)
Theorem delete_then_gone (P : platform) (filename : string) (w : world)
  (content : string) (mtime : Z)
  (Hfile : files w !! workdir_join P filename = Some (File content mtime))
  (Hunlink : fault w (SysUnlink (workdir_join P filename)) = None) :
  exists d1 w1,
    delete_file P filename w = (Return d1, w1) /\
    success_of d1 = Some true /\
    files w1 !! workdir_join P filename = None /\
    read_file P filename w1
    = (Return [("success", VBool false);
               ("error", VStr ("File " ++ filename ++ " does not exist"))], w1) /\
    delete_file P filename w1
    = (Return [("success", VBool false);
               ("error", VStr ("File " ++ filename ++ " does not exist"))], w1).
Proof.
  eexists _, _. split; [by eapply delete_file_present|].
  split; [reflexivity|].
  assert (Hgone : files (set_files (delete (workdir_join P filename) (files w)) w)
                  !! workdir_join P filename = None)
    by apply lookup_delete_eq.
  split; [exact Hgone|]. split.
  - by apply read_file_absent.
  - by apply delete_file_absent.
Qed.

Lemma delete_then_gone_witness :
  exists d1 w1,
    delete_file Demo.platform "notes.txt" Demo.offline = (Return d1, w1) /\
    success_of d1 = Some true /\
    files w1 !! "mcp_workspace/notes.txt" = None /\
    read_file Demo.platform "notes.txt" w1
    = (Return [("success", VBool false);
               ("error", VStr "File notes.txt does not exist")], w1) /\
    delete_file Demo.platform "notes.txt" w1
    = (Return [("success", VBool false);
               ("error", VStr "File notes.txt does not exist")], w1).
Proof.
  exact (delete_then_gone Demo.platform "notes.txt" Demo.offline "hello" 1700000000
           eq_refl eq_refl).
Defined.

(** X5.  A failed write leaves a partial file.  When the target
    path is free and the file opens but the write fails,
    [create_file] returns [success = false] with "Failed to create
    file: " and the fault's text; the path now holds a file with the
    bytes that were written before the failure, a prefix of the
    content that may be empty; and a retry fails with "already
    exists". *)
Theorem create_file_interrupted (P : platform) (filename content : string)
  (w : world) (e : exc)
  (Habsent : files w !! workdir_join P filename = None)
  (Hopenw : fault w (SysOpenW (workdir_join P filename)) = None)
  (Hwrite : fault w (SysWrite (workdir_join P filename)) = Some e) :
  exists w1 written rest,
    create_file P filename content w
    = (Return [("success", VBool false);
               ("error", VStr ("Failed to create file: " ++ exc_str e))], w1) /\
    content = written ++ rest /\
    written = String.substring 0 (write_progress w (workdir_join P filename)) content /\
    files w1 !! workdir_join P filename = Some (File written (clock w)) /\
    create_file P filename content w1
    = (Return [("success", VBool false);
               ("error", VStr ("File " ++ filename ++ " already exists"));
               ("path", VStr (workdir_join P filename))],
       w1).
Proof.
  set (p := workdir_join P filename) in *.
  set (written := String.substring 0 (write_progress w p) content).
  assert (Hrun : create_file P filename content w
                 = (Return [("success", VBool false);
                            ("error", VStr ("Failed to create file: " ++ exc_str e))],
                    set_files (<[p := File written (clock w)]> (files w)) w)).
  { step_fs. fold p. rewrite Habsent, Hopenw. cbn. rewrite Habsent. cbn.
    rewrite Hwrite. cbn. unfold set_files. cbn. by rewrite insert_insert_eq. }
  destruct (substring_prefix (write_progress w p) content) as [rest Hrest].
  eexists _, written, rest. split; [exact Hrun|].
  split; [exact Hrest|]. split; [reflexivity|].
  assert (Hnow : files (set_files (<[p := File written (clock w)]> (files w)) w)
                 !! p = Some (File written (clock w)))
    by apply lookup_insert_eq.
  split; [exact Hnow|]. eapply create_file_present, Hnow.
Qed.

Lemma create_file_interrupted_witness :
  exists w1 written rest,
    create_file Demo.platform "todo.txt" "buy milk" Scenario.disk_full
    = (Return [("success", VBool false);
               ("error", VStr "Failed to create file: [Errno 28] No space left on device")],
       w1) /\
    "buy milk" = written ++ rest /\
    written = "buy" /\
    files w1 !! "mcp_workspace/todo.txt" = Some (File written 1700000100) /\
    create_file Demo.platform "todo.txt" "buy milk" w1
    = (Return [("success", VBool false);
               ("error", VStr "File todo.txt already exists");
               ("path", VStr "mcp_workspace/todo.txt")],
       w1).
Proof.
  exact (create_file_interrupted Demo.platform "todo.txt" "buy milk"
           Scenario.disk_full
           (Exc OSError "[Errno 28] No space left on device")
           eq_refl eq_refl eq_refl).
Defined.

(** X6.  Directories are left alone.  When the target path is a
    directory, [read_file] and [delete_file] return [success = false]
    with their "Failed to ..." message and change nothing, and
    [create_file] reports that the name already exists. *)
Theorem directory_untouched (P : platform) (filename content : string) (w : world)
  (size mtime : Z)
  (Hdir : files w !! workdir_join P filename = Some (Directory size mtime)) :
  (exists msg,
      read_file P filename w
      = (Return [("success", VBool false);
                 ("error", VStr ("Failed to read file: " ++ msg))], w)) /\
  (exists msg,
      delete_file P filename w
      = (Return [("success", VBool false);
                 ("error", VStr ("Failed to delete file: " ++ msg))], w)) /\
  create_file P filename content w
  = (Return [("success", VBool false);
             ("error", VStr ("File " ++ filename ++ " already exists"));
             ("path", VStr (workdir_join P filename))],
     w).
Proof.
  split; [|split].
  - step_fs. rewrite Hdir. cbn.
    destruct (fault w (SysOpenR _)); cbn; [by eexists|].
    rewrite Hdir. by eexists.
  - step_fs. rewrite Hdir. cbn.
    destruct (fault w (SysUnlink _)); cbn; [by eexists|].
    rewrite Hdir. by eexists.
  - by eapply create_file_present.
Qed.

Lemma directory_untouched_witness :
  (exists msg,
      read_file Demo.platform "archive" Scenario.with_directory
      = (Return [("success", VBool false);
                 ("error", VStr ("Failed to read file: " ++ msg))],
         Scenario.with_directory)) /\
  (exists msg,
      delete_file Demo.platform "archive" Scenario.with_directory
      = (Return [("success", VBool false);
                 ("error", VStr ("Failed to delete file: " ++ msg))],
         Scenario.with_directory)) /\
  create_file Demo.platform "archive" "text" Scenario.with_directory
  = (Return [("success", VBool false);
             ("error", VStr "File archive already exists");
             ("path", VStr "mcp_workspace/archive")],
     Scenario.with_directory).
Proof.
  exact (directory_untouched Demo.platform "archive" "text"
           Scenario.with_directory 4096 1690000000 eq_refl).
Defined.

(** ** Footprint *)

Lemma preserves_world_ret {A} (a : A) : preserves_world (ret a).
Proof. by intros w. Qed.

Lemma preserves_world_raise {A} (e : exc) : preserves_world (@raise A e).
Proof. by intros w. Qed.

Lemma preserves_world_lift {A} (o : outcome A) : preserves_world (lift o).
Proof. by intros w. Qed.

Lemma preserves_world_get_world : preserves_world get_world.
Proof. by intros w. Qed.

Lemma preserves_world_bind {A B} (c : M A) (k : A -> M B) :
  preserves_world c -> (forall a, preserves_world (k a)) ->
  preserves_world (bind c k).
Proof.
  intros Hc Hk w. unfold bind. specialize (Hc w).
  destruct (c w) as [[a|e] w1]; simpl in *; subst; [apply Hk | reflexivity].
Qed.

Lemma preserves_world_try_except {A} (body : M A) (handler : exc -> M A) :
  preserves_world body -> (forall e, preserves_world (handler e)) ->
  preserves_world (try_except body handler).
Proof.
  intros Hc Hk w. unfold try_except. specialize (Hc w).
  destruct (body w) as [[a|e] w1]; simpl in *; subst; [reflexivity | apply Hk].
Qed.

Lemma preserves_world_check_fault s : preserves_world (check_fault s).
Proof.
  intros w. unfold check_fault, bind, get_world. cbn.
  by destruct (fault w s).
Qed.

Lemma preserves_world_with_client {A} (body : M A) :
  preserves_world body -> preserves_world (with_client body).
Proof.
  intros Hb w. unfold with_client, bind, check_fault, get_world. cbn.
  destruct (fault w SysClientOpen); [reflexivity|]. cbn.
  specialize (Hb w). destruct (body w) as [r w1]. simpl in Hb. subst.
  by destruct (fault w SysClientClose).
Qed.

Lemma preserves_world_observe {A} (f : world -> M A) :
  (forall w0, preserves_world (f w0)) ->
  preserves_world (bind get_world f).
Proof.
  intros Hf. apply preserves_world_bind; [apply preserves_world_get_world|].
  exact Hf.
Qed.

Create HintDb preserves_world.
#[local] Hint Resolve preserves_world_ret preserves_world_raise
  preserves_world_lift preserves_world_get_world preserves_world_check_fault
  : preserves_world.

Ltac preserves :=
  repeat first
    [ solve [auto with preserves_world]
    | apply preserves_world_try_except; [|intros ?]
    | apply preserves_world_with_client
    | apply preserves_world_bind; [|intros ?]
    | match goal with
      | |- preserves_world (if ?b then _ else _) => destruct b
      | |- preserves_world (match ?x with _ => _ end) => destruct x
      end
    | progress cbv zeta ].

Lemma preserves_world_path_exists p : preserves_world (path_exists p).
Proof. unfold path_exists. preserves. Qed.

Lemma preserves_world_path_is_file p : preserves_world (path_is_file p).
Proof. unfold path_is_file. preserves. Qed.

Lemma preserves_world_read_text p : preserves_world (read_text p).
Proof. unfold read_text. preserves. Qed.

Lemma preserves_world_path_stat p : preserves_world (path_stat p).
Proof. unfold path_stat. preserves. Qed.

Lemma preserves_world_client_get url params : preserves_world (client_get url params).
Proof. unfold client_get. preserves. Qed.

Lemma preserves_world_py_get v k default : preserves_world (py_get v k default).
Proof. unfold py_get. preserves. Qed.

Lemma preserves_world_py_item0 v : preserves_world (py_item0 v).
Proof. unfold py_item0. preserves. Qed.

Lemma preserves_world_py_getitem d k : preserves_world (py_getitem d k).
Proof. unfold py_getitem. preserves. Qed.

Lemma preserves_world_random_choice {A} (l : list A) : preserves_world (random_choice l).
Proof. unfold random_choice. preserves. Qed.

Lemma preserves_world_workdir_iterdir P : preserves_world (workdir_iterdir P).
Proof. unfold workdir_iterdir. preserves. Qed.

#[local] Hint Resolve preserves_world_path_exists preserves_world_path_is_file
  preserves_world_read_text preserves_world_path_stat preserves_world_client_get
  preserves_world_py_get preserves_world_py_item0 preserves_world_py_getitem
  preserves_world_random_choice preserves_world_workdir_iterdir
  : preserves_world.

Lemma preserves_world_list_files_loop P paths :
  forall acc, preserves_world (list_files_loop P paths acc).
Proof. induction paths as [|p rest IH]; intros acc; simpl; preserves. Qed.

Lemma preserves_world_read_file P filename : preserves_world (read_file P filename).
Proof. unfold read_file. preserves. Qed.

Lemma preserves_world_list_files P : preserves_world (list_files P).
Proof.
  unfold list_files. pose proof (preserves_world_list_files_loop P). preserves.
Qed.

Lemma preserves_world_get_weather_live city : preserves_world (get_weather_live city).
Proof. unfold get_weather_live. preserves. Qed.

Lemma preserves_world_get_weather city : preserves_world (get_weather city).
Proof.
  unfold get_weather, get_weather_fallback.
  pose proof (preserves_world_get_weather_live city). preserves.
Qed.

Lemma preserves_world_get_random_quote_live : preserves_world get_random_quote_live.
Proof. unfold get_random_quote_live. preserves. Qed.

Lemma preserves_world_get_random_quote : preserves_world get_random_quote.
Proof.
  unfold get_random_quote, get_random_quote_fallback.
  pose proof preserves_world_get_random_quote_live. preserves.
Qed.

Lemma preserves_world_process_json_data P s : preserves_world (process_json_data P s).
Proof. unfold process_json_data, process_json_data_body. preserves. Qed.

(** X7.  Read-only tools.  A call of [read_file], [list_files],
    [get_weather], [get_random_quote] or [process_json_data] leaves
    the world, the workspace files with it, exactly as it was,
    whatever it returns and whichever calls fail. *)
Theorem reading_calls_preserve_world (P : platform) (req : request) (w : world)
  (Hread : target_path P req = None) :
  snd (call P req w) = w.
Proof.
  destruct req; try discriminate; cbn [call].
  - apply preserves_world_read_file.
  - apply preserves_world_list_files.
  - apply preserves_world_get_weather.
  - apply preserves_world_get_random_quote.
  - apply preserves_world_process_json_data.
Qed.

Lemma reading_calls_preserve_world_witness :
  snd (call Demo.platform (ReadFile "notes.txt") Demo.offline) = Demo.offline.
Proof.
  exact (reading_calls_preserve_world Demo.platform (ReadFile "notes.txt")
           Demo.offline eq_refl).
Defined.

(** ** The file listing *)

Lemma path_stat_file p w content mtime :
  files w !! p = Some (File content mtime) ->
  path_stat p w
  = match fault w (SysStat p) with
    | Some e => (Raise e, w)
    | None => (Return (utf8_size content, mtime), w)
    end.
Proof.
  intros Hp. unfold path_stat, bind, check_fault, get_world, raise, ret. cbn.
  destruct (fault w (SysStat p)); cbn; [reflexivity|]. by rewrite Hp.
Qed.

Lemma list_files_loop_step P p rest acc w :
  list_files_loop P (p :: rest) acc w
  = match fault w (SysIsFile p) with
    | Some e => (Raise e, w)
    | None =>
        match files w !! p with
        | Some (File content mtime) =>
            match fault w (SysStat p) with
            | Some e => (Raise e, w)
            | None =>
                list_files_loop P rest (acc ++ [file_entry P p content mtime])%list w
            end
        | _ => list_files_loop P rest acc w
        end
    end.
Proof.
  cbn [list_files_loop]. unfold bind at 1.
  unfold path_is_file, bind, check_fault, get_world, raise, ret. cbn.
  destruct (fault w (SysIsFile p)); [reflexivity|]. cbn.
  destruct (files w !! p) as [[content mtime|size mtime]|] eqn:Hp;
    try reflexivity.
  unfold bind. rewrite (path_stat_file _ _ _ _ Hp).
  destruct (fault w (SysStat p)); reflexivity.
Qed.


(** When the loop returns, no [is_file] or [stat] failed and it
    collected the listing. *)
Lemma list_files_loop_Return P w paths :
  forall acc found w',
    list_files_loop P paths acc w = (Return found, w') ->
    (forall p, In p paths ->
               fault w (SysIsFile p) = None /\
               (is_file_at w p = true -> fault w (SysStat p) = None))
    /\ found = (acc ++ listing P w paths)%list /\ w' = w.
Proof.
  induction paths as [|p rest IH]; intros acc found w' H.
  - simpl in H. unfold ret in H. simplify_eq.
    split; [intros p []|]. by rewrite app_nil_r.
  - rewrite list_files_loop_step in H. unfold listing. cbn [flat_map].
    fold (listing P w rest). unfold is_file_at.
    destruct (fault w (SysIsFile p)) eqn:Hisf; [discriminate|].
    destruct (files w !! p) as [[content mtime|size mtime]|] eqn:Hp.
    + destruct (fault w (SysStat p)) eqn:Hf; [discriminate|].
      destruct (IH _ _ _ H) as (Hstat & -> & ->).
      split; [|by rewrite <- app_assoc].
      intros q [<-|Hq]; [by split | by apply Hstat].
    + destruct (IH _ _ _ H) as (Hstat & -> & ->).
      split; [|done]. intros q [<-|Hq]; [|by apply Hstat].
      split; [exact Hisf|]. rewrite Hp. discriminate.
    + destruct (IH _ _ _ H) as (Hstat & -> & ->).
      split; [|done]. intros q [<-|Hq]; [|by apply Hstat].
      split; [exact Hisf|]. rewrite Hp. discriminate.
Qed.

Lemma in_workdir_paths P w p :
  In p (filter (fun p => in_workdir P p = true) (map fst (map_to_list (files w))))
  <-> in_workdir P p = true /\ is_Some (files w !! p).
Proof.
  rewrite <- list_elem_of_In, list_elem_of_filter.
  split; intros [Hin Hp]; (split; [exact Hin|]).
  - apply list_elem_of_fmap in Hp as ([q n] & -> & Hqn).
    apply elem_of_map_to_list in Hqn. by eexists.
  - destruct Hp as [n Hn]. apply list_elem_of_fmap.
    exists (p, n). split; [reflexivity|]. by apply elem_of_map_to_list.
Qed.

Lemma entry_path_listing P w paths :
  map entry_path (listing P w paths) = map Some (List.filter (is_file_at w) paths).
Proof.
  induction paths as [|p rest IH]; [reflexivity|].
  unfold listing in *. cbn [flat_map List.filter]. unfold is_file_at at 1.
  destruct (files w !! p) as [[content mtime|size mtime]|]; cbn; by rewrite ?IH.
Qed.

Lemma listing_entries P w paths :
  Forall (fun e => exists p content mtime,
              files w !! p = Some (File content mtime) /\
              e = file_entry P p content mtime)
    (listing P w paths).
Proof.
  induction paths as [|p rest IH]; [constructor|].
  unfold listing in *. cbn [flat_map].
  destruct (files w !! p) as [[content mtime|size mtime]|] eqn:Hp; cbn;
    try exact IH.
  constructor; [|exact IH]. by exists p, content, mtime.
Qed.

(** X9.  The listing is exact.  A successful [list_files] reports
    as [count] the number of entries in [files]; the entries are
    those of the regular files directly in the workspace, each once,
    with the file's name, length and modification time; directories
    and files elsewhere are not listed; the world is unchanged. *)
Theorem list_files_exact (P : platform) (w : world) (d : pydict) (w' : world)
  (Hrun : list_files P w = (Return d, w'))
  (Hok : success_of d = Some true) :
  exists found,
    w' = w /\
    dict_get "files" d = Some (VList found) /\
    dict_get "count" d = Some (VInt (Z.of_nat (length found))) /\
    dict_get "workspace" d = Some (VStr (workdir_str P)) /\
    NoDup (map entry_path found) /\
    (forall p, In (Some p) (map entry_path found)
               <-> in_workdir P p = true /\ is_file_at w p = true) /\
    Forall (fun e => exists p content mtime,
                files w !! p = Some (File content mtime) /\
                e = file_entry P p content mtime) found.
Proof.
  unfold list_files, try_except in Hrun. unfold bind at 1 in Hrun.
  assert (Hiter : workdir_iterdir P w
                  = match fault w SysIterdir with
                    | Some e => (Raise e, w)
                    | None =>
                        (Return (filter (fun p => in_workdir P p = true)
                                   (map fst (map_to_list (files w)))), w)
                    end).
  { unfold workdir_iterdir, bind, check_fault, get_world, raise, ret. cbn.
    by destruct (fault w SysIterdir). }
  rewrite Hiter in Hrun.
  destruct (fault w SysIterdir); [unfold ret in Hrun; by simplify_eq|].
  unfold bind in Hrun.
  destruct (list_files_loop P _ [] w) as [[found|e] w1] eqn:Hloop;
    [|unfold ret in Hrun; by simplify_eq].
  apply list_files_loop_Return in Hloop as (_ & -> & ->). cbn [app] in Hrun.
  unfold ret in Hrun. simplify_eq.
  eexists. split; [reflexivity|]. do 3 (split; [reflexivity|]).
  split; [|split].
  - rewrite entry_path_listing.
    apply (NoDup_fmap_2 Some), NoDup_ListNoDup, List.NoDup_filter, NoDup_ListNoDup.
    apply NoDup_filter, NoDup_fst_map_to_list.
  - intros p. rewrite entry_path_listing, List.in_map_iff. split.
    + intros (q & Hq & Hin). simplify_eq.
      apply List.filter_In in Hin as [Hin Hfile].
      apply in_workdir_paths in Hin as [Hin _]. by split.
    + intros [Hin Hfile]. exists p. split; [reflexivity|].
      apply List.filter_In. split; [|exact Hfile].
      apply in_workdir_paths. split; [exact Hin|].
      unfold is_file_at in Hfile. destruct (files _ !! p); [by eexists|discriminate].
  - apply listing_entries.
Qed.

Lemma list_files_exact_witness :
  let d := [("success", VBool true);
            ("files", VList [file_entry Demo.platform "mcp_workspace/notes.txt"
                               "hello" 1700000000]);
            ("count", VInt 1);
            ("workspace", VStr "mcp_workspace")] in
  exists found,
    Scenario.with_directory = Scenario.with_directory /\
    dict_get "files" d = Some (VList found) /\
    dict_get "count" d = Some (VInt (Z.of_nat (length found))) /\
    dict_get "workspace" d = Some (VStr (workdir_str Demo.platform)) /\
    NoDup (map entry_path found) /\
    (forall p, In (Some p) (map entry_path found)
               <-> in_workdir Demo.platform p = true
                   /\ is_file_at Scenario.with_directory p = true) /\
    Forall (fun e => exists p content mtime,
                files Scenario.with_directory !! p = Some (File content mtime) /\
                e = file_entry Demo.platform p content mtime) found.
Proof.
  exact (list_files_exact Demo.platform Scenario.with_directory _ _
           eq_refl eq_refl).
Defined.


(** ** The external lookups *)

Lemma with_client_run {A} (body : M A) w :
  preserves_world body ->
  with_client body w
  = match fault w SysClientOpen with
    | Some e => (Raise e, w)
    | None =>
        match fault w SysClientClose with
        | Some e => (Raise e, w)
        | None => (fst (body w), w)
        end
    end.
Proof.
  intros Hb. unfold with_client, bind, check_fault, get_world, raise, ret. cbn.
  destruct (fault w SysClientOpen); [reflexivity|]. cbn.
  specialize (Hb w). destruct (body w) as [r w1]. simpl in *. subst.
  by destruct (fault w SysClientClose).
Qed.

Lemma weather_body_preserves city :
  preserves_world
    (resp <- client_get "https://api.openweathermap.org/data/2.5/weather"
               [("q", city); ("appid", "demo_key"); ("units", "metric")] ;;
     if Z.eqb (status_code resp) 200 then
       data <- lift (response_json resp) ;;
       name <- py_get data "name" VNone ;;
       sys <- py_get data "sys" (VDict []) ;;
       country <- py_get sys "country" VNone ;;
       main1 <- py_get data "main" (VDict []) ;;
       temp <- py_get main1 "temp" VNone ;;
       weather <- py_get data "weather" (VList [VDict []]) ;;
       first <- py_item0 weather ;;
       description <- py_get first "description" VNone ;;
       main2 <- py_get data "main" (VDict []) ;;
       humidity <- py_get main2 "humidity" VNone ;;
       main3 <- py_get data "main" (VDict []) ;;
       pressure <- py_get main3 "pressure" VNone ;;
       ret [("success", VBool true);
            ("city", name);
            ("country", country);
            ("temperature", temp);
            ("description", description);
            ("humidity", humidity);
            ("pressure", pressure)]
     else
       ret [("success", VBool false);
            ("error", VStr ("Weather API error: " ++ pretty (status_code resp)))])%handler.
Proof. preserves. Qed.

Lemma quote_body_preserves :
  preserves_world
    (resp <- client_get "https://api.quotable.io/random" [] ;;
     if Z.eqb (status_code resp) 200 then
       data <- lift (response_json resp) ;;
       content <- py_get data "content" VNone ;;
       author <- py_get data "author" VNone ;;
       tags <- py_get data "tags" (VList []) ;;
       ret [("success", VBool true);
            ("quote", content);
            ("author", author);
            ("tags", tags)]
     else
       ret [("success", VBool false);
            ("error", VStr ("Quote API error: " ++ pretty (status_code resp)))])%handler.
Proof. preserves. Qed.

(** X11.  An HTTP error status is reported, not masked.  When the
    client opens and closes without fault and the weather service
    answers with a status other than 200, [get_weather] returns
    [success = false] with "Weather API error: " and the status; the
    demo data is not served. *)
Theorem get_weather_error_status (city : string) (w : world) (resp : response)
  (Hopen : fault w SysClientOpen = None)
  (Hclose : fault w SysClientClose = None)
  (Hget : http_get w "https://api.openweathermap.org/data/2.5/weather"
            [("q", city); ("appid", "demo_key"); ("units", "metric")]
          = Return resp)
  (Hstatus : status_code resp <> 200) :
  get_weather city w
  = (Return [("success", VBool false);
             ("error", VStr ("Weather API error: " ++ pretty (status_code resp)))],
     w).
Proof.
  unfold get_weather, try_except, get_weather_live.
  rewrite with_client_run by apply weather_body_preserves.
  rewrite Hopen, Hclose.
  unfold bind at 1. unfold client_get, bind, get_world, lift. cbn.
  rewrite Hget. apply Z.eqb_neq in Hstatus. by rewrite Hstatus.
Qed.

Lemma get_weather_error_status_witness :
  get_weather "Paris" Scenario.unauthorized
  = (Return [("success", VBool false);
             ("error", VStr "Weather API error: 401")],
     Scenario.unauthorized).
Proof.
  exact (get_weather_error_status "Paris" Scenario.unauthorized
           {| status_code := 401;
              response_json := Return (VDict [("cod", VInt 401)]) |}
           eq_refl eq_refl eq_refl ltac:(discriminate)).
Defined.

(** X12.  The same for quotes.  When the client opens and closes
    without fault and the quote service answers with a status other
    than 200, [get_random_quote] returns [success = false] with
    "Quote API error: " and the status; no fallback quote is served. *)
Theorem get_random_quote_error_status (w : world) (resp : response)
  (Hopen : fault w SysClientOpen = None)
  (Hclose : fault w SysClientClose = None)
  (Hget : http_get w "https://api.quotable.io/random" [] = Return resp)
  (Hstatus : status_code resp <> 200) :
  get_random_quote w
  = (Return [("success", VBool false);
             ("error", VStr ("Quote API error: " ++ pretty (status_code resp)))],
     w).
Proof.
  unfold get_random_quote, try_except, get_random_quote_live.
  rewrite with_client_run by apply quote_body_preserves.
  rewrite Hopen, Hclose.
  unfold bind at 1. unfold client_get, bind, get_world, lift. cbn.
  rewrite Hget. apply Z.eqb_neq in Hstatus. by rewrite Hstatus.
Qed.

Lemma get_random_quote_error_status_witness :
  get_random_quote Scenario.unauthorized
  = (Return [("success", VBool false);
             ("error", VStr "Quote API error: 401")],
     Scenario.unauthorized).
Proof.
  exact (get_random_quote_error_status Scenario.unauthorized
           {| status_code := 401;
              response_json := Return (VDict [("cod", VInt 401)]) |}
           eq_refl eq_refl eq_refl ltac:(discriminate)).
Defined.

(** X13.  A body that is no object falls back.  When the weather
    service answers 200 and the body fails to decode or decodes to
    anything but a JSON object, [get_weather] serves the demo data
    for the city, marked by [note]. *)
Theorem get_weather_bad_body (city : string) (w : world) (resp : response)
  (Hget : http_get w "https://api.openweathermap.org/data/2.5/weather"
            [("q", city); ("appid", "demo_key"); ("units", "metric")]
          = Return resp)
  (Hstatus : status_code resp = 200)
  (Hbody : forall d, response_json resp <> Return (VDict d)) :
  get_weather city w
  = (Return [("success", VBool true);
             ("city", VStr city);
             ("temperature", VInt 22);
             ("description", VStr "partly cloudy");
             ("humidity", VInt 65);
             ("pressure", VInt 1013);
             ("note", VStr "Demo data - API key needed for real data")],
     w).
Proof.
  unfold get_weather, try_except, get_weather_live.
  rewrite with_client_run by apply weather_body_preserves.
  destruct (fault w SysClientOpen); [reflexivity|].
  destruct (fault w SysClientClose); [reflexivity|].
  unfold bind at 1. unfold client_get, bind, get_world, lift. cbn.
  rewrite Hget, Hstatus. cbn.
  destruct (response_json resp) as [data|e]; [|reflexivity].
  destruct data; try reflexivity. by destruct (Hbody entries).
Qed.

Lemma get_weather_bad_body_witness :
  get_weather "Paris" Scenario.malformed
  = (Return [("success", VBool true);
             ("city", VStr "Paris");
             ("temperature", VInt 22);
             ("description", VStr "partly cloudy");
             ("humidity", VInt 65);
             ("pressure", VInt 1013);
             ("note", VStr "Demo data - API key needed for real data")],
     Scenario.malformed).
Proof.
  exact (get_weather_bad_body "Paris" Scenario.malformed
           {| status_code := 200; response_json := Return (VList []) |}
           eq_refl eq_refl ltac:(discriminate)).
Defined.

(** X14.  What a live weather result holds.  When no client call
    fails, the service answers 200 with an object whose [sys] and
    [main] are objects (or absent) and whose [weather] is a list that
    starts with an object (or absent), [get_weather] returns
    [success = true] with the fields read from the body; every field
    the body lacks is [None]. *)
Theorem get_weather_live_fields (city : string) (w : world) (resp : response)
  (d sys main first : pydict) (rest : list value)
  (Hopen : fault w SysClientOpen = None)
  (Hclose : fault w SysClientClose = None)
  (Hget : http_get w "https://api.openweathermap.org/data/2.5/weather"
            [("q", city); ("appid", "demo_key"); ("units", "metric")]
          = Return resp)
  (Hstatus : status_code resp = 200)
  (Hbody : response_json resp = Return (VDict d))
  (Hsys : or_default (VDict []) (dict_get "sys" d) = VDict sys)
  (Hmain : or_default (VDict []) (dict_get "main" d) = VDict main)
  (Hweather : or_default (VList [VDict []]) (dict_get "weather" d)
              = VList (VDict first :: rest)) :
  get_weather city w
  = (Return [("success", VBool true);
             ("city", or_none (dict_get "name" d));
             ("country", or_none (dict_get "country" sys));
             ("temperature", or_none (dict_get "temp" main));
             ("description", or_none (dict_get "description" first));
             ("humidity", or_none (dict_get "humidity" main));
             ("pressure", or_none (dict_get "pressure" main))],
     w).
Proof.
  unfold get_weather, try_except, get_weather_live.
  rewrite with_client_run by apply weather_body_preserves.
  rewrite Hopen, Hclose.
  unfold bind at 1. unfold client_get, bind, get_world, lift. cbn.
  rewrite Hget, Hstatus. cbn. rewrite Hbody.
  unfold or_default in Hsys, Hmain, Hweather. unfold py_get, ret. cbn.
  rewrite Hsys, Hmain, Hweather. cbn. reflexivity.
Qed.

Lemma get_weather_live_fields_witness :
  get_weather "Paris" Demo.online
  = (Return [("success", VBool true);
             ("city", VStr "Paris");
             ("country", VStr "FR");
             ("temperature", VInt 18);
             ("description", VStr "clear sky");
             ("humidity", VInt 70);
             ("pressure", VInt 1011)],
     Demo.online).
Proof.
  exact (get_weather_live_fields "Paris" Demo.online _ _ _ _ _ _
           eq_refl eq_refl eq_refl eq_refl eq_refl eq_refl eq_refl eq_refl).
Defined.

(** X15.  A failing client masks a good answer.  When opening or
    closing the HTTP client fails, [get_weather] serves the demo
    data, whatever the service answered. *)
Theorem get_weather_client_fault (city : string) (w : world) (e : exc)
  (Hfault : fault w SysClientOpen = Some e \/ fault w SysClientClose = Some e) :
  get_weather city w
  = (Return [("success", VBool true);
             ("city", VStr city);
             ("temperature", VInt 22);
             ("description", VStr "partly cloudy");
             ("humidity", VInt 65);
             ("pressure", VInt 1013);
             ("note", VStr "Demo data - API key needed for real data")],
     w).
Proof.
  unfold get_weather, try_except, get_weather_live.
  rewrite with_client_run by apply weather_body_preserves.
  destruct Hfault as [H|H]; rewrite H; [reflexivity|].
  by destruct (fault w SysClientOpen).
Qed.

Lemma get_weather_client_fault_witness :
  get_weather "Paris" Scenario.broken_close
  = (Return [("success", VBool true);
             ("city", VStr "Paris");
             ("temperature", VInt 22);
             ("description", VStr "partly cloudy");
             ("humidity", VInt 65);
             ("pressure", VInt 1013);
             ("note", VStr "Demo data - API key needed for real data")],
     Scenario.broken_close)
  /\ http_get Scenario.broken_close = http_get Demo.online.
Proof.
  split; [|reflexivity].
  exact (get_weather_client_fault "Paris" Scenario.broken_close
           (Exc (OtherError "RuntimeError") "Event loop is closed")
           (or_intror eq_refl)).
Defined.

(** X16.  Any object is a quote.  When no client call fails and the
    quote service answers 200 with a JSON object, [get_random_quote]
    returns [success = true] with the object's [content] and
    [author], [None] where absent, and its [tags], an empty list
    where absent; there is no [note]. *)
Theorem get_random_quote_live_fields (w : world) (resp : response) (d : pydict)
  (Hopen : fault w SysClientOpen = None)
  (Hclose : fault w SysClientClose = None)
  (Hget : http_get w "https://api.quotable.io/random" [] = Return resp)
  (Hstatus : status_code resp = 200)
  (Hbody : response_json resp = Return (VDict d)) :
  get_random_quote w
  = (Return [("success", VBool true);
             ("quote", or_none (dict_get "content" d));
             ("author", or_none (dict_get "author" d));
             ("tags", or_default (VList []) (dict_get "tags" d))],
     w).
Proof.
  unfold get_random_quote, try_except, get_random_quote_live.
  rewrite with_client_run by apply quote_body_preserves.
  rewrite Hopen, Hclose.
  unfold bind at 1. unfold client_get, bind, get_world, lift. cbn.
  rewrite Hget, Hstatus. cbn. rewrite Hbody. reflexivity.
Qed.

Lemma get_random_quote_live_fields_witness :
  get_random_quote Demo.online
  = (Return [("success", VBool true);
             ("quote", VStr "Stay curious.");
             ("author", VStr "Anonymous");
             ("tags", VList [])],
     Demo.online).
Proof.
  exact (get_random_quote_live_fields Demo.online _ _
           eq_refl eq_refl eq_refl eq_refl eq_refl).
Defined.

(** X17.  The fallback quote is drawn from the list.  When the live
    lookup raises, [get_random_quote] returns the quote and author of
    the entry of [quotes] at the drawn index modulo three, marked by
    [note], and the world is unchanged. *)
Theorem get_random_quote_fallback_drawn (w : world) (e : exc)
  (Hlive : fst (get_random_quote_live w) = Raise e) :
  exists q quote author,
    quotes !! (random_index w `mod` 3)%nat = Some q /\
    dict_get "quote" q = Some quote /\
    dict_get "author" q = Some author /\
    get_random_quote w
    = (Return [("success", VBool true);
               ("quote", quote);
               ("author", author);
               ("note", VStr "Fallback quote - API unavailable")],
       w).
Proof.
  unfold get_random_quote, try_except.
  pose proof (preserves_world_get_random_quote_live w) as Hw.
  destruct (get_random_quote_live w) as [[d|e'] w1]; simpl in Hw, Hlive; subst;
    [discriminate|].
  unfold get_random_quote_fallback, random_choice, bind, get_world, ret.
  change (length quotes) with 3%nat.
  assert (Hlt : (random_index w `mod` 3 < 3)%nat)
    by (apply Nat.mod_upper_bound; discriminate).
  destruct (random_index w `mod` 3)%nat as [|[|[|n]]]; [..|lia];
    (eexists _, _, _; split; [reflexivity|]; split; [reflexivity|];
     split; reflexivity).
Qed.

Lemma get_random_quote_fallback_drawn_witness :
  exists q quote author,
    quotes !! (random_index Scenario.malformed `mod` 3)%nat = Some q /\
    dict_get "quote" q = Some quote /\
    dict_get "author" q = Some author /\
    get_random_quote Scenario.malformed
    = (Return [("success", VBool true);
               ("quote", quote);
               ("author", author);
               ("note", VStr "Fallback quote - API unavailable")],
       Scenario.malformed).
Proof.
  exact (get_random_quote_fallback_drawn Scenario.malformed
           (Exc AttributeError "'list' object has no attribute 'get'") eq_refl).
Defined.

(** ** Nesting levels *)

Lemma py_max_ge_head (xs : list Z) : forall x, x <= py_max x xs.
Proof.
  unfold py_max. induction xs as [|y ys IH]; intros x; simpl; [lia|].
  specialize (IH (Z.max x y)). lia.
Qed.

Lemma py_max_ge_elem (xs : list Z) :
  forall x y, In y xs -> y <= py_max x xs.
Proof.
  unfold py_max. induction xs as [|z zs IH]; intros x y Hy; [destruct Hy|].
  simpl. destruct Hy as [->|Hy]; [|by apply IH].
  pose proof (py_max_ge_head zs (Z.max x y)) as H. unfold py_max in H. lia.
Qed.

Lemma py_max_attained (xs : list Z) :
  forall x, py_max x xs = x \/ In (py_max x xs) xs.
Proof.
  unfold py_max. induction xs as [|y ys IH]; intros x; simpl; [by left|].
  destruct (IH (Z.max x y)) as [H|H]; [|by right; right].
  rewrite H. destruct (Z.max_spec x y) as [[_ ->]|[_ ->]]; [right; by left | by left].
Qed.

Lemma count_nested_levels_container (v : value) (level : Z) (c : value)
  (rest : list value) :
  children v = c :: rest ->
  _count_nested_levels v level
  = py_max (_count_nested_levels c (level + 1))
      (map (fun i => _count_nested_levels i (level + 1)) rest).
Proof.
  destruct v as [| | | | |l|d]; simpl; try discriminate.
  - intros ->. reflexivity.
  - destruct d as [|[k x] d']; simpl; [discriminate|].
    intros H. simplify_eq. by rewrite map_map.
Qed.

Lemma nesting_depth_zero_iff (v : value) :
  nesting_depth v = 0%nat <-> children v = [].
Proof.
  destruct v as [| | | | |[|c rest]|[|[k c] rest]]; simpl; try done.
Qed.

(** X18.  Leaves stay at their level.  [_count_nested_levels] never
    returns less than the level it is given, and it returns exactly
    that level when, and only when, the value is a scalar or an empty
    container. *)
Theorem count_nested_levels_leaf (v : value) (level : Z) :
  level <= _count_nested_levels v level /\
  (_count_nested_levels v level = level <-> children v = []).
Proof.
  rewrite count_nested_levels_shift. split; [lia|].
  rewrite <- nesting_depth_zero_iff. lia.
Qed.

(** X19.  A container is one level above its deepest child.  For
    every child of a list or object, counting the child from the next
    level gives at most the count of the container, and for a
    non-empty container some child attains it. *)
Theorem count_nested_levels_children (v : value) (level : Z) :
  (forall c, In c (children v) ->
             _count_nested_levels c (level + 1) <= _count_nested_levels v level)
  /\ (children v <> [] ->
      exists c, In c (children v) /\
                _count_nested_levels v level = _count_nested_levels c (level + 1)).
Proof.
  destruct (children v) as [|c0 rest] eqn:Hch; [split; [intros c []|done]|].
  rewrite (count_nested_levels_container v level c0 rest Hch). split.
  - intros c [<-|Hc]; [apply py_max_ge_head|].
    apply py_max_ge_elem, List.in_map_iff. by exists c.
  - intros _.
    destruct (py_max_attained
                (map (fun i => _count_nested_levels i (level + 1)) rest)
                (_count_nested_levels c0 (level + 1))) as [H|H].
    + exists c0. split; [by left | exact H].
    + apply List.in_map_iff in H as (c & Hc & Hin).
      exists c. split; [by right | by rewrite Hc].
Qed.

(** X20.  What the analysis reports.  For a text that decodes to
    [v], nested less deeply than the recursion budget, the
    [analysis] of [process_json_data] holds the number of code
    points of the text as [size]; [length] is the number of children for a
    list or object and [None] for every scalar, strings included;
    [keys] is the list of an object's keys in their order and [None]
    otherwise; [nested_levels] is the nesting depth of [v], which is
    0 exactly when [v] has no child. *)
Theorem process_json_data_analysis (P : platform) (s : string) (w : world)
  (v : value) (Hparse : json_loads P s = Return v)
  (Hfits : (nesting_depth v < call_budget P)%nat) :
  exists d analysis,
    process_json_data P s w = (Return d, w) /\
    dict_get "analysis" d = Some (VDict analysis) /\
    dict_get "type" analysis = Some (VStr (type_name v)) /\
    dict_get "size" analysis = Some (VInt (py_len s)) /\
    dict_get "length" analysis
    = Some (match v with
            | VList _ | VDict _ => VInt (Z.of_nat (length (children v)))
            | _ => VNone
            end) /\
    dict_get "keys" analysis
    = Some (match v with
            | VDict entries => VList (map VStr (map fst entries))
            | _ => VNone
            end) /\
    dict_get "nested_levels" analysis = Some (VInt (Z.of_nat (nesting_depth v))) /\
    (nesting_depth v = 0%nat <-> children v = []).
Proof.
  rewrite process_json_data_run, Hparse. cbv zeta.
  rewrite count_nested_levels_call_spec.
  apply Nat.ltb_lt in Hfits. rewrite Hfits.
  eexists _, _. split; [reflexivity|]. split; [reflexivity|].
  split; [reflexivity|]. split; [reflexivity|]. split.
  { destruct v; simpl; try reflexivity. by rewrite length_map. }
  split; [by destruct v|]. split.
  { simpl. by rewrite count_nested_levels_shift, Z.add_0_l. }
  apply nesting_depth_zero_iff.
Qed.

Lemma process_json_data_analysis_witness :
  exists d analysis,
    process_json_data Demo.platform "[[1], 2]" Demo.offline
    = (Return d, Demo.offline) /\
    dict_get "analysis" d = Some (VDict analysis) /\
    dict_get "type" analysis = Some (VStr "list") /\
    dict_get "size" analysis = Some (VInt 8) /\
    dict_get "length" analysis = Some (VInt 2) /\
    dict_get "keys" analysis = Some VNone /\
    dict_get "nested_levels" analysis = Some (VInt 2) /\
    (2%nat = 0%nat <-> [VList [VInt 1]; VInt 2] = []).
Proof.
  exact (process_json_data_analysis Demo.platform "[[1], 2]" Demo.offline
           (VList [VList [VInt 1]; VInt 2]) eq_refl ltac:(vm_compute; lia)).
Defined.

(** ** Prompts and the information page *)

(** X21.  The prompts carry their arguments.  Each prompt template
    returns a text in which its first argument, its second argument
    and the fixed list of points occur in this order, whatever the
    arguments are. *)
Theorem prompts_embed_arguments :
  (forall data_type objective,
      occurs_in_order
        [data_type; objective; "Please provide:";
         "1. Initial data exploration steps";
         "5. Potential pitfalls or limitations to consider"]
        (data_analysis_prompt data_type objective))
  /\ (forall api_name use_case,
        occurs_in_order
          [api_name; use_case; "Please include:";
           "1. Authentication requirements";
           "6. Security best practices"]
          (api_integration_prompt api_name use_case)).
Proof.
  split; intros a b.
  - unfold data_analysis_prompt. do 2 apply occurs_cons.
    apply names_in_order_sound. vm_compute. reflexivity.
  - unfold api_integration_prompt. do 2 apply occurs_cons.
    apply names_in_order_sound. vm_compute. reflexivity.
Qed.

(** X22.  The information page names what the server offers beside
    its tools.  The text of [get_server_info] holds, in this order,
    the workspace directory, the current time, the resource
    [server://info] and the names of the two prompt templates; reading
    it changes nothing. *)
Theorem get_server_info_lists_resources (P : platform) (w : world) :
  exists text,
    get_server_info P w = (Return text, w) /\
    occurs_in_order
      [workdir_str P; isoformat P (clock w); "server://info";
       "data_analysis_prompt"; "api_integration_prompt"]
      text.
Proof.
  eexists. split; [reflexivity|].
  do 2 apply occurs_cons.
  apply names_in_order_sound. vm_compute. reflexivity.
Qed.
